(** * Terminal session lifecycle of tcell (tscreen_unix.go, driver.go)

    A shallow embedding of the Unix side of tcell's terminal screen: the
    [TermDriver] interface and its default implementation (driver.go), and
    the session operations [engage], [disengage], [initialize], [finalize],
    [getWinSize] and [Beep] of [tScreen] (tscreen_unix.go).

    Go code that mutates the receiver and talks to the operating system is
    written in a small state monad whose computations either return, panic,
    or block for ever.  What a call does outside the session record (system
    calls, the terminal helpers of tscreen.go, driver methods, channel
    operations, goroutine starts) is recorded, in program order, in a trace
    of events; the mutex and the wait group are fields of the record. *)

From Stdlib Require Import ZArith List String Ascii Bool Lia PeanoNat.
Import ListNotations.
Open Scope string_scope.
Open Scope list_scope.
Open Scope Z_scope.

(** ** Go values *)

(** A channel is a reference into the runtime's table of channels; a nil
    channel is [None] at type [option chan]. *)
Definition chan := nat.

(** A pointer to [os.File]: the descriptor the handle wraps; a nil handle is [None]. *)
Definition File := Z.

(** [File.Fd], followed by the conversion [int(...)] every caller in
    tscreen_unix.go applies: a nil handle reports [^uintptr(0)], that is -1
    as an [int]. *)
Definition Fd (f : option File) : Z :=
  match f with
  | Some d => d
  | None => -1
  end.

(** [error] values: the package-level sentinel of driver.go (made once, with
    the text "driver does not provide WinSize"), the errors made elsewhere
    by [errors.New], and the errors of system calls.  Go compares errors
    made by [errors.New] by identity, so the sentinel is a value of its own,
    different from any other error, even one with the same text. *)
Inductive error : Type :=
| ErrWinSizeUnused
| errors_New (msg : string)
| Errno (code : Z).

(** [x == nil] for a channel, a pointer or an interface value. *)
Definition is_nil {A} (x : option A) : bool :=
  match x with
  | Some _ => false
  | None => true
  end.

(** [err == ErrWinSizeUnused]: true of the sentinel and of nothing else. *)
Definition is_ErrWinSizeUnused (err : option error) : bool :=
  match err with
  | Some ErrWinSizeUnused => true
  | _ => false
  end.

(** [string(b)] for a byte [b]: the UTF-8 encoding of the code point [b]. *)
Definition string_of_byte (b : Z) : string :=
  if b <? 128 then String (ascii_of_N (Z.to_N b)) EmptyString
  else String (ascii_of_N (Z.to_N (Z.lor 192 (Z.shiftr b 6))))
         (String (ascii_of_N (Z.to_N (Z.lor 128 (Z.land b 63)))) EmptyString).

Definition bytes_of_string (s : string) : list Z :=
  map (fun a => Z.of_N (N_of_ascii a)) (list_ascii_of_string s).

(** [os.Signal]; the only one the package names. *)
Inductive Signal : Type := SIGWINCH.

(** [term.State]: the terminal attributes as the kernel reports them. *)
Record term_State : Type := { termios : list Z }.

(** The two loops of the session (their bodies live in tscreen.go). *)
Inductive Loop : Type := inputLoop | mainLoop.

Definition O_RDONLY : Z := 0.
Definition O_WRONLY : Z := 1.

(** ** Events *)

(** What a driver does to the system. *)
Inductive DrvEvent : Type :=
| EvOpenFile (path : string) (flag : Z) (perm : Z)
| EvSignalNotify (c : chan) (sig : Signal)
| EvSignalStop (c : option chan)
| EvGetenv (name : string)
| EvOther (what : string).

(** The methods of the driver interface. *)
Inductive Method : Type := mInit | mWinSize | mGetTerm | mEngage | mDisengage.

(** What the session does, in program order; a call of a driver method is
    one event here, and what the method does is in the driver's own trace. *)
Inductive Event : Type :=
| EvDriver (m : Method)
| EvMakeRaw (fd : Z)
| EvGetState (fd : Z)
| EvGetSize (fd : Z)
| EvRestore (fd : Z) (st : option term_State)
| EvNonBlocking (on : bool)
| EvEnableMouse (flags : Z)
| EvEnablePasting (on : bool)
| EvTPuts (s : string)
| EvWriteString (s : string)
| EvCellsResize (w h : Z)
| EvMakeChan (c : chan)
| EvClose (c : chan)
| EvGo (l : Loop) (c : chan)
| EvLoopExit (l : Loop)
| EvJoined.

(** What the operating system answers.  Each answer may depend on the
    history of calls so far, so the same call can succeed once and fail
    later. *)
Record Kernel : Type := {
  k_OpenFile : list DrvEvent -> string -> Z -> Z -> option File * option error;
  k_Getenv : list DrvEvent -> string -> string;
  k_MakeRaw : list Event -> Z -> option error;
  k_GetState : list Event -> Z -> term_State + error;
  k_GetSize : list Event -> Z -> Z * Z * option error
}.

(** ** State *)

(** The part of the world a driver can reach: its own trace and the table
    of [os/signal] registrations. *)
Record Sys : Type := {
  dtrace : list DrvEvent;
  handlers : list (chan * Signal)
}.

(** The world of a session: its trace, the driver's system, the runtime's
    channels ([true] once closed; a channel is its index) and the loops that
    are running, each with the stop channel it was started with. *)
Record World : Type := {
  trace : list Event;
  sys : Sys;
  chans : list bool;
  running : list (Loop * chan)
}.

Definition dlog (e : DrvEvent) (y : Sys) : Sys :=
  {| dtrace := dtrace y ++ [e]; handlers := handlers y |}.

Definition set_sys (y : Sys) (w : World) : World :=
  {| trace := trace w; sys := y; chans := chans w; running := running w |}.

Definition set_chans (cs : list bool) (w : World) : World :=
  {| trace := trace w; sys := sys w; chans := cs; running := running w |}.

Definition set_running (r : list (Loop * chan)) (w : World) : World :=
  {| trace := trace w; sys := sys w; chans := chans w; running := r |}.

Definition wlog (e : Event) (w : World) : World :=
  {| trace := trace w ++ [e]; sys := sys w; chans := chans w; running := running w |}.

(** ** The monad *)

Inductive Res (A S : Type) : Type :=
| Ret (a : A) (s : S)
| Panic (msg : string) (s : S)
| Blocked (s : S).
Arguments Ret {A S} a s.
Arguments Panic {A S} msg s.
Arguments Blocked {A S} s.

Definition M (S A : Type) : Type := S -> Res A S.

Definition ret {S A} (a : A) : M S A := fun s => Ret a s.

Definition bind {S A B} (m : M S A) (k : A -> M S B) : M S B :=
  fun s =>
    match m s with
    | Ret a s1 => k a s1
    | Panic msg s1 => Panic msg s1
    | Blocked s1 => Blocked s1
    end.

Definition get {S} : M S S := fun s => Ret s s.
Definition modify {S} (f : S -> S) : M S unit := fun s => Ret tt (f s).
Definition panic {S A} (msg : string) : M S A := fun s => Panic msg s.

(** [defer d] placed before [body]: [d] runs when [body] returns and also
    when it panics, and the panic then goes on. *)
Definition defer {S A} (d : M S unit) (body : M S A) : M S A :=
  fun s =>
    match body s with
    | Ret a s1 =>
        match d s1 with
        | Ret _ s2 => Ret a s2
        | Panic msg s2 => Panic msg s2
        | Blocked s2 => Blocked s2
        end
    | Panic msg s1 =>
        match d s1 with
        | Ret _ s2 => Panic msg s2
        | Panic msg' s2 => Panic msg' s2
        | Blocked s2 => Blocked s2
        end
    | Blocked s1 => Blocked s1
    end.

Declare Scope go_scope.
Delimit Scope go_scope with go.
Notation "x <- m ;; k" := (bind m (fun x => k))
  (at level 61, m at next level, right associativity) : go_scope.
Notation "' p <- m ;; k" := (bind m (fun x => match x with p => k end))
  (at level 61, p pattern, m at next level, right associativity) : go_scope.
Notation "m ;; k" := (bind m (fun _ => k))
  (at level 61, right associativity) : go_scope.
Open Scope go_scope.

(** ** driver.go *)

(** [TermDriver]: the interface; [D] is the state behind the receiver. *)
Class TermDriver (D : Type) : Type := {
  Init : option chan -> M (D * Sys) (option File * option File * option error);
  WinSize : M (D * Sys) (Z * Z * option error);
  GetTerm : M (D * Sys) string;
  Engage : M (D * Sys) unit;
  Disengage : M (D * Sys) unit
}.

Record defaultTermDriver : Type := {
  winch : option chan;
  out : option File
}.

Definition relays (c : chan) (sig : Signal) (hs : list (chan * Signal)) : bool :=
  existsb (fun r => Nat.eqb (fst r) c &&
                    match snd r, sig with SIGWINCH, SIGWINCH => true end) hs.

(** [signal.Notify(c, sig)]: panics on a nil channel; otherwise adds [sig]
    to the set of signals relayed to [c]. *)
Definition signal_Notify {D} (c : option chan) (sig : Signal) : M (D * Sys) unit :=
  match c with
  | None => panic "os/signal: Notify using nil channel"
  | Some ch =>
      modify (fun s =>
        (fst s, {| dtrace := dtrace (snd s) ++ [EvSignalNotify ch sig];
                   handlers := if relays ch sig (handlers (snd s))
                               then handlers (snd s)
                               else (ch, sig) :: handlers (snd s) |}))
  end.

(** [signal.Stop(c)]: no signal is relayed to [c] any more. *)
Definition signal_Stop {D} (c : option chan) : M (D * Sys) unit :=
  modify (fun s =>
    (fst s,
     {| dtrace := dtrace (snd s) ++ [EvSignalStop c];
        handlers :=
          match c with
          | None => handlers (snd s)
          | Some ch => filter (fun r => negb (Nat.eqb (fst r) ch)) (handlers (snd s))
          end |})).

Section DefaultDriver.

Variable K : Kernel.

Definition os_OpenFile {D} (path : string) (flag perm : Z)
  : M (D * Sys) (option File * option error) :=
  fun s =>
    Ret (k_OpenFile K (dtrace (snd s)) path flag perm)
        (fst s, dlog (EvOpenFile path flag perm) (snd s)).

Definition os_Getenv {D} (name : string) : M (D * Sys) string :=
  fun s => Ret (k_Getenv K (dtrace (snd s)) name) (fst s, dlog (EvGetenv name) (snd s)).

(** tscreen_unix.go, [defaultTermDriver.Engage]. *)
Definition defaultTermDriver_Engage : M (defaultTermDriver * Sys) unit :=
  d <- get ;;
  signal_Notify (winch (fst d)) SIGWINCH.

(** tscreen_unix.go, [defaultTermDriver.Disengage]. *)
Definition defaultTermDriver_Disengage : M (defaultTermDriver * Sys) unit :=
  d <- get ;;
  signal_Stop (winch (fst d)).

(** driver.go, [defaultTermDriver.Init]; the results are named, so a
    bare [return] hands back what they hold at that point. *)
Definition defaultTermDriver_Init (winch0 : option chan)
  : M (defaultTermDriver * Sys) (option File * option File * option error) :=
  '(in0, err) <- os_OpenFile "/dev/tty" O_RDONLY 0 ;;
  if negb (is_nil err) then ret (in0, None, err)
  else
    '(out0, err) <- os_OpenFile "/dev/tty" O_WRONLY 0 ;;
    if negb (is_nil err) then ret (in0, out0, err)
    else
      modify (fun s => ({| winch := winch0; out := out (fst s) |}, snd s)) ;;
      modify (fun s => ({| winch := winch (fst s); out := out0 |}, snd s)) ;;
      defaultTermDriver_Engage ;;
      ret (in0, out0, err).

Definition defaultTermDriver_GetTerm : M (defaultTermDriver * Sys) string :=
  os_Getenv "TERM".

Definition defaultTermDriver_WinSize
  : M (defaultTermDriver * Sys) (Z * Z * option error) :=
  ret (0, 0, Some ErrWinSizeUnused).

Definition defaultTermDriver_TermDriver : TermDriver defaultTermDriver := {|
  Init := defaultTermDriver_Init;
  WinSize := defaultTermDriver_WinSize;
  GetTerm := defaultTermDriver_GetTerm;
  Engage := defaultTermDriver_Engage;
  Disengage := defaultTermDriver_Disengage
|}.

End DefaultDriver.

(** ** tscreen_unix.go: the session *)

(** The capability strings the session emits (fields of [terminfo.Terminfo];
    their values come from the terminal database). *)
Record Terminfo : Type := {
  EnterCA : string;
  ExitCA : string;
  EnterKeypad : string;
  ExitKeypad : string;
  HideCursor : string;
  ShowCursor : string;
  EnableAcs : string;
  Clear : string;
  AttrOff : string
}.

(** The geometry of the shared cell buffer. *)
Record CellBuffer : Type := { cb_w : Z; cb_h : Z }.

(** The fields of [tScreen] that tscreen_unix.go reads or writes.  [mu] is
    the embedded mutex ([true] while held), [wg] the counter of the wait
    group, [stopQ] the stop signal ([None] is nil); [t_in] and [t_out] are
    the fields [in] and [out]. *)
Record tScreen (D : Type) : Type := {
  mu : bool;
  ti : Terminfo;
  t_in : option File;
  t_out : option File;
  cells : CellBuffer;
  mouseFlags : Z;
  pasteEnabled : bool;
  driver : D;
  sigwinch : option chan;
  stopQ : option chan;
  wg : nat;
  saved : option term_State
}.
Arguments mu {D} _.
Arguments ti {D} _.
Arguments t_in {D} _.
Arguments t_out {D} _.
Arguments cells {D} _.
Arguments mouseFlags {D} _.
Arguments pasteEnabled {D} _.
Arguments driver {D} _.
Arguments sigwinch {D} _.
Arguments stopQ {D} _.
Arguments wg {D} _.
Arguments saved {D} _.

Section Session.

Context {D : Type} {drv : TermDriver D}.
Variable K : Kernel.

Definition St : Type := (tScreen D * World)%type.

Definition set_mu (b : bool) (t : tScreen D) : tScreen D :=
  {| mu := b; ti := ti t; t_in := t_in t; t_out := t_out t; cells := cells t;
     mouseFlags := mouseFlags t; pasteEnabled := pasteEnabled t;
     driver := driver t; sigwinch := sigwinch t; stopQ := stopQ t;
     wg := wg t; saved := saved t |}.

Definition set_in_out (i o : option File) (t : tScreen D) : tScreen D :=
  {| mu := mu t; ti := ti t; t_in := i; t_out := o; cells := cells t;
     mouseFlags := mouseFlags t; pasteEnabled := pasteEnabled t;
     driver := driver t; sigwinch := sigwinch t; stopQ := stopQ t;
     wg := wg t; saved := saved t |}.

Definition set_cells (c : CellBuffer) (t : tScreen D) : tScreen D :=
  {| mu := mu t; ti := ti t; t_in := t_in t; t_out := t_out t; cells := c;
     mouseFlags := mouseFlags t; pasteEnabled := pasteEnabled t;
     driver := driver t; sigwinch := sigwinch t; stopQ := stopQ t;
     wg := wg t; saved := saved t |}.

Definition set_driver (d : D) (t : tScreen D) : tScreen D :=
  {| mu := mu t; ti := ti t; t_in := t_in t; t_out := t_out t; cells := cells t;
     mouseFlags := mouseFlags t; pasteEnabled := pasteEnabled t;
     driver := d; sigwinch := sigwinch t; stopQ := stopQ t;
     wg := wg t; saved := saved t |}.

Definition set_stopQ (q : option chan) (t : tScreen D) : tScreen D :=
  {| mu := mu t; ti := ti t; t_in := t_in t; t_out := t_out t; cells := cells t;
     mouseFlags := mouseFlags t; pasteEnabled := pasteEnabled t;
     driver := driver t; sigwinch := sigwinch t; stopQ := q;
     wg := wg t; saved := saved t |}.

Definition set_wg (n : nat) (t : tScreen D) : tScreen D :=
  {| mu := mu t; ti := ti t; t_in := t_in t; t_out := t_out t; cells := cells t;
     mouseFlags := mouseFlags t; pasteEnabled := pasteEnabled t;
     driver := driver t; sigwinch := sigwinch t; stopQ := stopQ t;
     wg := n; saved := saved t |}.

Definition set_saved (st : option term_State) (t : tScreen D) : tScreen D :=
  {| mu := mu t; ti := ti t; t_in := t_in t; t_out := t_out t; cells := cells t;
     mouseFlags := mouseFlags t; pasteEnabled := pasteEnabled t;
     driver := driver t; sigwinch := sigwinch t; stopQ := stopQ t;
     wg := wg t; saved := st |}.

(** *** The runtime and the libraries *)

Definition on_t (f : tScreen D -> tScreen D) : M St unit :=
  modify (fun s => (f (fst s), snd s)).

Definition event (e : Event) : M St unit :=
  modify (fun s => (fst s, wlog e (snd s))).

(** [sync.Mutex]: [Lock] waits while the mutex is held; unlocking a free
    mutex is a fatal error. *)
Definition t_Lock : M St unit :=
  fun s => if mu (fst s) then Blocked s else Ret tt (set_mu true (fst s), snd s).

Definition t_Unlock : M St unit :=
  fun s =>
    if mu (fst s) then Ret tt (set_mu false (fst s), snd s)
    else Panic "sync: unlock of unlocked mutex" s.

(** [make(chan struct{})]: a channel no one holds yet. *)
Definition make_chan : M St chan :=
  fun s =>
    let c := List.length (chans (snd s)) in
    Ret c (fst s, wlog (EvMakeChan c) (set_chans (chans (snd s) ++ [false]) (snd s))).

Fixpoint mark_closed (c : chan) (cs : list bool) {struct cs} : list bool :=
  match cs, c with
  | [], _ => []
  | _ :: cs', O => true :: cs'
  | b :: cs', S c' => b :: mark_closed c' cs'
  end.

Definition chan_closed (w : World) (c : chan) : bool :=
  nth c (chans w) false.

(** [close(c)]: panics on a nil channel and on a closed one.  (A reference
    outside the table names no channel; closing it changes nothing.) *)
Definition close (c : option chan) : M St unit :=
  match c with
  | None => panic "close of nil channel"
  | Some ch =>
      fun s =>
        if chan_closed (snd s) ch then Panic "close of closed channel" s
        else Ret tt (fst s, wlog (EvClose ch)
                              (set_chans (mark_closed ch (chans (snd s))) (snd s)))
  end.

(** [go t.inputLoop(c)], [go t.mainLoop(c)]. *)
Definition go (l : Loop) (c : chan) : M St unit :=
  modify (fun s => (fst s, wlog (EvGo l c)
                             (set_running (running (snd s) ++ [(l, c)]) (snd s)))).

Definition wg_Add (n : nat) : M St unit :=
  on_t (fun t => set_wg (wg t + n) t).

(** [wg.Done], called by a loop on its way out. *)
Definition wg_Done : M St unit :=
  fun s =>
    match wg (fst s) with
    | O => Panic "sync: negative WaitGroup counter" s
    | S n => Ret tt (set_wg n (fst s), snd s)
    end.

(** Modelled from the spec: [inputLoop] and [mainLoop] (tscreen.go, not
    part of these two files).  Each loop runs until its stop signal fires;
    it then exits and reports completion to the join mechanism.  A loop
    whose stop channel is still open keeps running.  The result lists the
    loops that stay. *)
Fixpoint loops_observe_stop (ls : list (Loop * chan)) : M St (list (Loop * chan)) :=
  match ls with
  | [] => ret []
  | (l, c) :: ls' =>
      s <- get ;;
      if chan_closed (snd s) c then
        event (EvLoopExit l) ;;
        wg_Done ;;
        loops_observe_stop ls'
      else
        rest <- loops_observe_stop ls' ;;
        ret ((l, c) :: rest)
  end.

(** [wg.Wait]: while the caller waits the loops get to run; the call
    returns once the counter is zero and never otherwise. *)
Definition wg_Wait : M St unit :=
  s <- get ;;
  staying <- loops_observe_stop (running (snd s)) ;;
  modify (fun s => (fst s, set_running staying (snd s))) ;;
  fun s =>
    match wg (fst s) with
    | O => Ret tt (fst s, wlog EvJoined (snd s))
    | S _ => Blocked s
    end.

(** [golang.org/x/term]: [MakeRaw] (the previous state it also returns is
    dropped by its caller), [GetState] (a state, or nil and an error) and
    [GetSize]. *)
Definition term_MakeRaw (fd : Z) : M St (option error) :=
  fun s => Ret (k_MakeRaw K (trace (snd s)) fd) (fst s, wlog (EvMakeRaw fd) (snd s)).

Definition term_GetState (fd : Z) : M St (option term_State * option error) :=
  fun s =>
    Ret (match k_GetState K (trace (snd s)) fd with
         | inl st => (Some st, None)
         | inr e => (None, Some e)
         end)
        (fst s, wlog (EvGetState fd) (snd s)).

Definition term_GetSize (fd : Z) : M St (Z * Z * option error) :=
  fun s => Ret (k_GetSize K (trace (snd s)) fd) (fst s, wlog (EvGetSize fd) (snd s)).

(** [term.Restore]: it reads the attributes through the state pointer, so a
    nil state is a nil dereference and the call panics before anything
    reaches the terminal; otherwise the attributes are written back, and the
    only caller drops the error. *)
Definition term_Restore (fd : Z) (st : option term_State) : M St unit :=
  match st with
  | None => panic "runtime error: invalid memory address or nil pointer dereference"
  | Some _ => event (EvRestore fd st)
  end.

(** A method call on [t.driver]. *)
Definition call_driver {A} (name : Method) (m : M (D * Sys) A) : M St A :=
  fun s =>
    let back (r : D * Sys) : St :=
      (set_driver (fst r) (fst s), set_sys (snd r) (wlog (EvDriver name) (snd s))) in
    match m (driver (fst s), sys (snd s)) with
    | Ret a r => Ret a (back r)
    | Panic msg r => Panic msg (back r)
    | Blocked r => Blocked (back r)
    end.

(** *** The helpers of tscreen.go and cell.go

    Their bodies are not in these two files; a call is recorded as the
    event of that name. *)

Definition nonBlocking (on : bool) : M St unit := event (EvNonBlocking on).
Definition enableMouse (f : Z) : M St unit := event (EvEnableMouse f).
Definition enablePasting (on : bool) : M St unit := event (EvEnablePasting on).
Definition TPuts (s : string) : M St unit := event (EvTPuts s).

(** Modelled from the spec: [writeString] (tscreen.go) writes the bytes of
    its argument to the output stream. *)
Definition writeString (s : string) : M St unit := event (EvWriteString s).

(** Modelled from the spec: [CellBuffer.Resize] (cell.go) gives the shared
    cell buffer the geometry it is called with. *)
Definition cells_Resize (w h : Z) : M St unit :=
  on_t (set_cells {| cb_w := w; cb_h := h |}) ;;
  event (EvCellsResize w h).

(** *** tscreen_unix.go *)

(** [getWinSize] *)
Definition getWinSize : M St (Z * Z * option error) :=
  '(w, h, err) <- call_driver mWinSize WinSize ;;
  if negb (is_ErrWinSizeUnused err) then ret (w, h, err)
  else
    t <- get ;;
    term_GetSize (Fd (t_in (fst t))).

(** [engage] *)
Definition engage : M St (option error) :=
  t_Lock ;;
  defer t_Unlock
    (t <- get ;;
     if negb (is_nil (stopQ (fst t))) then
       ret (Some (errors_New "already engaged"))
     else
       err <- term_MakeRaw (Fd (t_in (fst t))) ;;
       if negb (is_nil err) then ret err
       else
         '(w, h, err) <- getWinSize ;;
         (if is_nil err && negb (w =? 0) && negb (h =? 0)
          then cells_Resize w h else ret tt) ;;
         stopQ0 <- make_chan ;;
         on_t (set_stopQ (Some stopQ0)) ;;
         nonBlocking false ;;
         t <- get ;;
         enableMouse (mouseFlags (fst t)) ;;
         t <- get ;;
         enablePasting (pasteEnabled (fst t)) ;;
         call_driver mEngage Engage ;;
         t <- get ;;
         let ti0 := ti (fst t) in
         TPuts (EnterCA ti0) ;;
         TPuts (EnterKeypad ti0) ;;
         TPuts (HideCursor ti0) ;;
         TPuts (EnableAcs ti0) ;;
         TPuts (Clear ti0) ;;
         wg_Add 2 ;;
         go inputLoop stopQ0 ;;
         go mainLoop stopQ0 ;;
         ret None).

(** [disengage] *)
Definition disengage : M St unit :=
  t_Lock ;;
  nonBlocking true ;;
  t <- get ;;
  let stopQ0 := stopQ (fst t) in
  on_t (set_stopQ None) ;;
  close stopQ0 ;;
  t_Unlock ;;
  wg_Wait ;;
  call_driver mDisengage Disengage ;;
  nonBlocking false ;;
  t <- get ;;
  let ti0 := ti (fst t) in
  cells_Resize 0 0 ;;
  TPuts (ShowCursor ti0) ;;
  TPuts (AttrOff ti0) ;;
  TPuts (Clear ti0) ;;
  TPuts (ExitCA ti0) ;;
  TPuts (ExitKeypad ti0) ;;
  enableMouse 0 ;;
  enablePasting false ;;
  t <- get ;;
  term_Restore (Fd (t_in (fst t))) (saved (fst t)).

(** [initialize] *)
Definition initialize : M St (option error) :=
  t <- get ;;
  '(i, o, err) <- call_driver mInit (Init (sigwinch (fst t))) ;;
  on_t (set_in_out i o) ;;
  if negb (is_nil err) then ret err
  else
    t <- get ;;
    '(st, err) <- term_GetState (Fd (t_in (fst t))) ;;
    on_t (set_saved st) ;;
    if is_nil err then ret None
    else ret None.

(** [finalize] *)
Definition finalize : M St unit := disengage.

(** [Beep] *)
Definition Beep : M St (option error) :=
  writeString (string_of_byte 7) ;;
  ret None.

End Session.

Arguments St D : clear implicits.

(** ** A concrete terminal

    A kernel whose terminal is 80 columns by 24 lines, and a freshly
    constructed session on the default driver. *)

Definition tty_kernel : Kernel := {|
  k_OpenFile := fun _ _ flag _ => (Some (3 + flag), None);
  k_Getenv := fun _ _ => "xterm";
  k_MakeRaw := fun _ _ => None;
  k_GetState := fun _ _ => inl {| termios := [19200; 5; 191; 35387] |};
  k_GetSize := fun _ _ => (80, 24, None)
|}.

Definition xterm : Terminfo := {|
  EnterCA := "smcup";
  ExitCA := "rmcup";
  EnterKeypad := "smkx";
  ExitKeypad := "rmkx";
  HideCursor := "civis";
  ShowCursor := "cnorm";
  EnableAcs := "enacs";
  Clear := "clear";
  AttrOff := "sgr0"
|}.

Definition boot_world : World := {|
  trace := [];
  sys := {| dtrace := []; handlers := [] |};
  chans := [false];
  running := []
|}.

Definition new_screen : tScreen defaultTermDriver := {|
  mu := false;
  ti := xterm;
  t_in := None;
  t_out := None;
  cells := {| cb_w := 0; cb_h := 0 |};
  mouseFlags := 0;
  pasteEnabled := false;
  driver := {| winch := None; out := None |};
  sigwinch := Some 0%nat;
  stopQ := None;
  wg := 0;
  saved := None
|}.

(** The state a result carries. *)
Definition state_of {A S} (r : Res A S) : S :=
  match r with
  | Ret _ s => s
  | Panic _ s => s
  | Blocked s => s
  end.

(** The default driver on that terminal. *)
#[export] Instance tty_driver : TermDriver defaultTermDriver :=
  defaultTermDriver_TermDriver tty_kernel.

(** A kernel on which the terminal cannot be put into raw mode. *)
Definition no_raw_kernel : Kernel := {|
  k_OpenFile := k_OpenFile tty_kernel;
  k_Getenv := k_Getenv tty_kernel;
  k_MakeRaw := fun _ _ => Some (Errno 25);
  k_GetState := k_GetState tty_kernel;
  k_GetSize := k_GetSize tty_kernel
|}.

(** The session after [initialize], and after [initialize] and [engage]. *)
Definition ready : St defaultTermDriver :=
  Eval vm_compute in state_of (initialize tty_kernel (new_screen, boot_world)).

Definition engaged : St defaultTermDriver :=
  Eval vm_compute in state_of (engage tty_kernel ready).

(** A driver for a session whose input and output are different devices:
    it hands out the standard input and the standard output of the process
    and leaves the geometry to the platform. *)
#[export] Instance stdioDriver : TermDriver unit := {|
  Init := fun _ => ret (Some 0, Some 1, None);
  WinSize := ret (0, 0, Some ErrWinSizeUnused);
  GetTerm := ret "xterm";
  Engage := ret tt;
  Disengage := ret tt
|}.

(** A kernel for a process whose standard output is the terminal and whose
    standard input is not one: only descriptor 1 has a geometry. *)
Definition redirected_kernel : Kernel := {|
  k_OpenFile := k_OpenFile tty_kernel;
  k_Getenv := k_Getenv tty_kernel;
  k_MakeRaw := k_MakeRaw tty_kernel;
  k_GetState := k_GetState tty_kernel;
  k_GetSize := fun _ fd => if fd =? 1 then (80, 24, None) else (0, 0, Some (Errno 25))
|}.

Definition stdio_screen : tScreen unit := {|
  mu := false;
  ti := xterm;
  t_in := None;
  t_out := None;
  cells := {| cb_w := 0; cb_h := 0 |};
  mouseFlags := 0;
  pasteEnabled := false;
  driver := tt;
  sigwinch := Some 0%nat;
  stopQ := None;
  wg := 0;
  saved := None
|}.

Definition piped : St unit :=
  Eval vm_compute in state_of (initialize redirected_kernel (stdio_screen, boot_world)).

(** A kernel that cannot report the attributes of the terminal. *)
Definition no_state_kernel : Kernel := {|
  k_OpenFile := k_OpenFile tty_kernel;
  k_Getenv := k_Getenv tty_kernel;
  k_MakeRaw := k_MakeRaw tty_kernel;
  k_GetState := fun _ _ => inr (Errno 25);
  k_GetSize := k_GetSize tty_kernel
|}.

(** The hooks of a driver return, from every driver state that satisfies
    [Inv], and leave the driver in such a state. *)
Record hooks_return {D} {drv : TermDriver D} (Inv : D -> Prop) : Prop := {
  WinSize_returns : forall d y, Inv d ->
    exists r d' y', WinSize (d, y) = Ret r (d', y') /\ Inv d';
  Engage_returns : forall d y, Inv d ->
    exists d' y', Engage (d, y) = Ret tt (d', y') /\ Inv d';
  Disengage_returns : forall d y, Inv d ->
    exists d' y', Disengage (d, y) = Ret tt (d', y') /\ Inv d'
}.

(** The test [engage] applies to the answer of the geometry query. *)
Definition usable_size (qw qh : Z) (qerr : option error) : bool :=
  is_nil qerr && negb (qw =? 0) && negb (qh =? 0).

(** The events of [engage] from the creation of the stop signal on. *)
Definition engage_tail {D} (t : tScreen D) (c : chan) : list Event :=
  [EvMakeChan c; EvNonBlocking false; EvEnableMouse (mouseFlags t);
   EvEnablePasting (pasteEnabled t); EvDriver mEngage;
   EvTPuts (EnterCA (ti t)); EvTPuts (EnterKeypad (ti t));
   EvTPuts (HideCursor (ti t)); EvTPuts (EnableAcs (ti t));
   EvTPuts (Clear (ti t)); EvGo inputLoop c; EvGo mainLoop c].

(** The events of [disengage] once both loops have joined. *)
Definition disengage_tail {D} (t : tScreen D) : list Event :=
  [EvDriver mDisengage; EvNonBlocking false; EvCellsResize 0 0;
   EvTPuts (ShowCursor (ti t)); EvTPuts (AttrOff (ti t));
   EvTPuts (Clear (ti t)); EvTPuts (ExitCA (ti t));
   EvTPuts (ExitKeypad (ti t)); EvEnableMouse 0; EvEnablePasting false;
   EvRestore (Fd (t_in t)) (saved t)].

(** The events of [disengage] between the join and the restoration. *)
Definition exit_events {D} (t : tScreen D) : list Event :=
  [EvDriver mDisengage; EvNonBlocking false; EvCellsResize 0 0;
   EvTPuts (ShowCursor (ti t)); EvTPuts (AttrOff (ti t));
   EvTPuts (Clear (ti t)); EvTPuts (ExitCA (ti t));
   EvTPuts (ExitKeypad (ti t)); EvEnableMouse 0; EvEnablePasting false].

(** What reaches the terminal at shutdown: a capability string, or the
    restoration of the saved attributes. *)
Definition is_tty_output (e : Event) : bool :=
  match e with
  | EvTPuts _ | EvRestore _ _ => true
  | _ => false
  end.

(** A world with more events in its trace. *)
Definition wlogs (es : list Event) (w : World) : World :=
  {| trace := trace w ++ es; sys := sys w; chans := chans w; running := running w |}.

(** A kernel on which /dev/tty cannot be opened at all, and one on which
    it can be opened for reading only. *)
Definition no_tty_kernel : Kernel := {|
  k_OpenFile := fun _ _ _ _ => (None, Some (Errno 6));
  k_Getenv := k_Getenv tty_kernel;
  k_MakeRaw := k_MakeRaw tty_kernel;
  k_GetState := k_GetState tty_kernel;
  k_GetSize := k_GetSize tty_kernel
|}.

Definition read_only_tty_kernel : Kernel := {|
  k_OpenFile := fun _ _ flag _ =>
    if flag =? O_RDONLY then (Some 3, None) else (None, Some (Errno 13));
  k_Getenv := k_Getenv tty_kernel;
  k_MakeRaw := k_MakeRaw tty_kernel;
  k_GetState := k_GetState tty_kernel;
  k_GetSize := k_GetSize tty_kernel
|}.

(** A driver on a pseudo-terminal: one descriptor for both directions, and
    a geometry answer of its own, which is its state. *)
#[export] Instance ptyDriver : TermDriver (Z * Z * option error) := {|
  Init := fun _ => ret (Some 5, Some 5, None);
  WinSize := fun s => Ret (fst s) s;
  GetTerm := ret "xterm";
  Engage := ret tt;
  Disengage := ret tt
|}.

Definition pty_screen (answer : Z * Z * option error)
  : tScreen (Z * Z * option error) := {|
  mu := false;
  ti := xterm;
  t_in := Some 5;
  t_out := Some 5;
  cells := {| cb_w := 0; cb_h := 0 |};
  mouseFlags := 0;
  pasteEnabled := false;
  driver := answer;
  sigwinch := Some 0%nat;
  stopQ := None;
  wg := 0;
  saved := None
|}.

(** A driver whose pseudo-terminal has lost its peer: it still answers the
    geometry it knew, but its hooks panic. *)
#[export] Instance goneDriver : TermDriver string := {|
  Init := fun _ => ret (Some 5, Some 5, None);
  WinSize := ret (80, 24, None);
  GetTerm := ret "xterm";
  Engage := panic "pty: peer closed";
  Disengage := panic "pty: peer closed"
|}.

Definition gone_screen : tScreen string := {|
  mu := false;
  ti := xterm;
  t_in := Some 5;
  t_out := Some 5;
  cells := {| cb_w := 0; cb_h := 0 |};
  mouseFlags := 0;
  pasteEnabled := false;
  driver := "/dev/pts/7";
  sigwinch := Some 0%nat;
  stopQ := None;
  wg := 0;
  saved := Some {| termios := [19200; 5; 191; 35387] |}
|}.

(** The same session, engaged while the peer was still there. *)
Definition gone_engaged : St string :=
  (set_wg 2 (set_stopQ (Some 1%nat) gone_screen),
   {| trace := []; sys := sys boot_world; chans := [false; false];
      running := [(inputLoop, 1%nat); (mainLoop, 1%nat)] |}).

(** * Properties *)

(** ** Unfolding the monad *)

Lemma set_mu_unlock {D} (t : tScreen D) :
  mu t = false -> set_mu false (set_mu true t) = t.
Proof. destruct t; simpl; intros ->; reflexivity. Qed.

Ltac run :=
  unfold bind, defer, get, ret, modify, panic, on_t, event; simpl.

(** ** Engage while engaged *)

(** C1.  When [engage] is called on a session that is engaged (its stop
    signal is not nil), it returns the error "already engaged" and the
    session and the world are exactly what they were: same stop channel, no
    raw-mode switch, no capability string, no loop started. *)
Theorem engage_already_engaged {D} {drv : TermDriver D} (K : Kernel)
    (t : tScreen D) (w : World) (c : chan) :
  mu t = false ->
  stopQ t = Some c ->
  engage K (t, w) = Ret (Some (errors_New "already engaged")) (t, w).
Proof.
  intros Hmu Hq.
  unfold engage, t_Lock, t_Unlock. run.
  rewrite Hmu. simpl. rewrite Hq. simpl.
  rewrite set_mu_unlock by assumption. reflexivity.
Qed.

Lemma engage_already_engaged_witness :
  mu (fst engaged) = false /\
  stopQ (fst engaged) = Some 1%nat /\
  engage tty_kernel engaged = Ret (Some (errors_New "already engaged")) engaged.
Proof.
  split; [reflexivity | split; [reflexivity | ]].
  apply (engage_already_engaged tty_kernel (fst engaged) (snd engaged) 1%nat);
    reflexivity.
Defined.

(** ** Raw mode refused *)

(** C7.  When the switch to raw mode fails, [engage] returns that very
    error and nothing after the switch runs: the session is unchanged (the
    stop signal is still nil) and the only event is the raw-mode call, so no
    capability string, no mouse or paste call, no driver call and no loop. *)
Theorem engage_raw_mode_failure {D} {drv : TermDriver D} (K : Kernel)
    (t : tScreen D) (w : World) (e : error) :
  mu t = false ->
  stopQ t = None ->
  k_MakeRaw K (trace w) (Fd (t_in t)) = Some e ->
  engage K (t, w) = Ret (Some e) (t, wlog (EvMakeRaw (Fd (t_in t))) w).
Proof.
  intros Hmu Hq Hraw.
  unfold engage, t_Lock, t_Unlock, term_MakeRaw. run.
  rewrite Hmu. simpl. rewrite Hq. simpl. rewrite Hraw. simpl.
  rewrite set_mu_unlock by assumption. reflexivity.
Qed.

Lemma engage_raw_mode_failure_witness :
  mu (fst ready) = false /\
  stopQ (fst ready) = None /\
  k_MakeRaw no_raw_kernel (trace (snd ready)) (Fd (t_in (fst ready))) = Some (Errno 25) /\
  engage no_raw_kernel ready =
    Ret (Some (Errno 25)) (fst ready, wlog (EvMakeRaw 3) (snd ready)).
Proof.
  repeat (split; [reflexivity | ]).
  apply (engage_raw_mode_failure no_raw_kernel (fst ready) (snd ready) (Errno 25));
    reflexivity.
Defined.

(** ** Disengage while disengaged *)

(** [disengage] has no guard for the disengaged state: with the stop signal
    nil it takes the lock, switches the terminal to non-blocking mode and
    panics closing the nil channel, the lock still held; none of the later
    steps runs.  [finalize], which is [disengage], does the same. *)
Lemma disengage_disengaged_panics {D} {drv : TermDriver D}
    (t : tScreen D) (w : World) :
  mu t = false ->
  stopQ t = None ->
  disengage (t, w) =
    Panic "close of nil channel" (set_mu true t, wlog (EvNonBlocking true) w) /\
  finalize (t, w) = disengage (t, w).
Proof.
  intros Hmu Hq. split; [ | reflexivity].
  unfold disengage, t_Lock, nonBlocking, close. run.
  rewrite Hmu. simpl. rewrite Hq. simpl.
  replace (set_stopQ None (set_mu true t)) with (set_mu true t); [reflexivity | ].
  destruct t; simpl in *; subst; reflexivity.
Qed.

(** C2, evaluated.  A session is initialised, engaged once and disengaged
    once; then [finalize] is called, once.  It is not a no-op: it does not
    return, but panics closing the nil stop channel, after taking the lock,
    which stays held, and switching the terminal to non-blocking mode.  The
    same holds of [disengage] on the never engaged session. *)
Theorem finalize_after_disengage_panics :
  exists s1 s2,
    engage tty_kernel ready = Ret None s1 /\
    disengage s1 = Ret tt s2 /\
    stopQ (fst s2) = None /\
    mu (fst s2) = false /\
    finalize s2 =
      Panic "close of nil channel"
            (set_mu true (fst s2), wlog (EvNonBlocking true) (snd s2)) /\
    ~ (exists s3, finalize s2 = Ret tt s3) /\
    disengage ready =
      Panic "close of nil channel"
            (set_mu true (fst ready), wlog (EvNonBlocking true) (snd ready)).
Proof.
  exists engaged. eexists.
  split; [reflexivity | ].
  split; [vm_compute; reflexivity | ].
  split; [reflexivity | ].
  split; [reflexivity | ].
  split; [vm_compute; reflexivity | ].
  split; [ | vm_compute; reflexivity].
  intros [s3 E]. vm_compute in E. discriminate E.
Qed.

(** ** Beep *)

(** C8.  In every state, [Beep] writes one string to the output stream, the
    string holds the single byte 7, and the call returns nil. *)
Theorem Beep_writes_bel {D} (t : tScreen D) (w : World) :
  Beep (t, w) = Ret None (t, wlog (EvWriteString (string_of_byte 7)) w) /\
  bytes_of_string (string_of_byte 7) = [7].
Proof. split; reflexivity. Qed.

(** ** Window size *)

(** What [getWinSize] does with the driver's answer: anything but the
    sentinel is handed back as it is; on the sentinel the platform is asked
    about the descriptor of the input handle. *)
Lemma getWinSize_spec {D} {drv : TermDriver D} (K : Kernel)
    (t : tScreen D) (w : World) qw qh qerr d' y' :
  WinSize (driver t, sys w) = Ret (qw, qh, qerr) (d', y') ->
  getWinSize K (t, w) =
    let w1 := set_sys y' (wlog (EvDriver mWinSize) w) in
    if is_ErrWinSizeUnused qerr
    then Ret (k_GetSize K (trace w1) (Fd (t_in t)))
             (set_driver d' t, wlog (EvGetSize (Fd (t_in t))) w1)
    else Ret (qw, qh, qerr) (set_driver d' t, w1).
Proof.
  intros E. unfold getWinSize, call_driver, term_GetSize. run.
  rewrite E. simpl. destruct (is_ErrWinSizeUnused qerr); reflexivity.
Qed.

(** C5, evaluated.  The driver answers with the sentinel; the session's
    input is descriptor 0 and its output descriptor 1.  [getWinSize] asks
    the platform about descriptor 0, the input handle, and gets its error,
    while the output handle has the geometry 80 by 24. *)
Theorem getWinSize_falls_back_on_input_handle :
  t_in (fst piped) = Some 0 /\
  t_out (fst piped) = Some 1 /\
  WinSize (driver (fst piped), sys (snd piped)) =
    Ret (0, 0, Some ErrWinSizeUnused) (tt, sys (snd piped)) /\
  getWinSize redirected_kernel piped =
    Ret (0, 0, Some (Errno 25))
        (fst piped, wlog (EvGetSize 0) (wlog (EvDriver mWinSize) (snd piped))) /\
  k_GetSize redirected_kernel (trace (snd piped) ++ [EvDriver mWinSize])
            (Fd (t_out (fst piped))) = (80, 24, None).
Proof. repeat split. Qed.

(** ** Initialisation *)

(** C9.  When the driver's [Init] returns, [initialize] returns what [Init]
    returned as its error, so it fails exactly when [Init] fails.  When
    [Init] succeeds the result is nil whatever the query of the terminal
    attributes answers; if the query fails its error is dropped and the
    saved attributes are nil. *)
Theorem initialize_fails_iff_Init_fails {D} {drv : TermDriver D} (K : Kernel)
    (t : tScreen D) (w : World) i o e d' y' :
  Init (sigwinch t) (driver t, sys w) = Ret (i, o, e) (d', y') ->
  exists t' w',
    initialize K (t, w) = Ret e (t', w') /\
    t_in t' = i /\ t_out t' = o /\
    (e <> None -> saved t' = saved t /\ trace w' = trace w ++ [EvDriver mInit]) /\
    (e = None ->
       trace w' = trace w ++ [EvDriver mInit; EvGetState (Fd i)] /\
       saved t' = match k_GetState K (trace w ++ [EvDriver mInit]) (Fd i) with
                  | inl st => Some st
                  | inr _ => None
                  end).
Proof.
  intros E. unfold initialize, call_driver, term_GetState. run.
  rewrite E. simpl. destruct e as [e | ]; simpl.
  - eexists _, _. split; [reflexivity | ]. simpl.
    repeat split; intros; congruence.
  - destruct (k_GetState K (trace w ++ [EvDriver mInit]) (Fd i)) as [st | ge] eqn:G;
      simpl; eexists _, _; (split; [reflexivity | ]); simpl;
      (split; [reflexivity | split; [reflexivity | split]]);
      [ intros N; congruence
      | intros _; rewrite <- app_assoc; split; reflexivity
      | intros N; congruence
      | intros _; rewrite <- app_assoc; split; reflexivity ].
Qed.

Lemma initialize_fails_iff_Init_fails_witness :
  Init (sigwinch new_screen) (driver new_screen, sys boot_world) =
    Ret (Some 3, Some 4, None)
        ({| winch := Some 0%nat; out := Some 4 |},
         {| dtrace := [EvOpenFile "/dev/tty" 0 0; EvOpenFile "/dev/tty" 1 0;
                       EvSignalNotify 0%nat SIGWINCH];
            handlers := [(0%nat, SIGWINCH)] |}) /\
  exists t' w',
    initialize no_state_kernel (new_screen, boot_world) = Ret None (t', w') /\
    saved t' = None.
Proof.
  assert (E : Init (sigwinch new_screen) (driver new_screen, sys boot_world) =
              Ret (Some 3, Some 4, None)
                  ({| winch := Some 0%nat; out := Some 4 |},
                   {| dtrace := [EvOpenFile "/dev/tty" 0 0; EvOpenFile "/dev/tty" 1 0;
                                 EvSignalNotify 0%nat SIGWINCH];
                      handlers := [(0%nat, SIGWINCH)] |}))
    by reflexivity.
  split; [exact E | ].
  destruct (initialize_fails_iff_Init_fails no_state_kernel new_screen boot_world
              _ _ _ _ _ E)
    as (t' & w' & R & _ & _ & _ & Hs).
  exists t', w'. split; [exact R | ].
  destruct (Hs eq_refl) as [_ Hsaved]. exact Hsaved.
Defined.

(** ** The default driver *)

Lemma relays_after_Notify (c : chan) (hs : list (chan * Signal)) :
  relays c SIGWINCH (if relays c SIGWINCH hs then hs else (c, SIGWINCH) :: hs) = true.
Proof.
  destruct (relays c SIGWINCH hs) eqn:E; [exact E | ].
  unfold relays. simpl. rewrite Nat.eqb_refl. reflexivity.
Qed.

Lemma relays_after_Stop (c : chan) (sig : Signal) (hs : list (chan * Signal)) :
  relays c sig (filter (fun r => negb (Nat.eqb (fst r) c)) hs) = false.
Proof.
  unfold relays. induction hs as [ | [c0 s0] hs IH]; simpl; [reflexivity | ].
  destruct (Nat.eqb c0 c) eqn:E; simpl; [exact IH | ].
  rewrite E. simpl. exact IH.
Qed.

(** C10.  After both opens of /dev/tty succeed, the default driver's [Init]
    stores the resize channel and the output handle and calls its own
    [Engage]: the channel is registered for the resize signal when [Init]
    returns, and so when [initialize] returns, before the session has
    engaged.  From then on [Engage] registers and [Disengage] unregisters
    that stored channel. *)
Theorem default_Init_registers_winch (K : Kernel) (d : defaultTermDriver)
    (y : Sys) (c : chan) (fi fo : option File) :
  k_OpenFile K (dtrace y) "/dev/tty" O_RDONLY 0 = (fi, None) ->
  k_OpenFile K (dtrace y ++ [EvOpenFile "/dev/tty" O_RDONLY 0])
             "/dev/tty" O_WRONLY 0 = (fo, None) ->
  let d' := {| winch := Some c; out := fo |} in
  (exists y',
     defaultTermDriver_Init K (Some c) (d, y) = Ret (fi, fo, None) (d', y') /\
     dtrace y' = dtrace y ++ [EvOpenFile "/dev/tty" O_RDONLY 0;
                              EvOpenFile "/dev/tty" O_WRONLY 0;
                              EvSignalNotify c SIGWINCH] /\
     relays c SIGWINCH (handlers y') = true) /\
  (forall (t : tScreen defaultTermDriver) (w : World),
     driver t = d -> sys w = y -> sigwinch t = Some c ->
     exists t' w',
       initialize (drv := defaultTermDriver_TermDriver K) K (t, w) = Ret None (t', w') /\
       driver t' = d' /\
       relays c SIGWINCH (handlers (sys w')) = true /\
       stopQ t' = stopQ t /\
       trace w' = trace w ++ [EvDriver mInit; EvGetState (Fd fi)]) /\
  (forall y2,
     (exists y3,
        defaultTermDriver_Engage (d', y2) = Ret tt (d', y3) /\
        dtrace y3 = dtrace y2 ++ [EvSignalNotify c SIGWINCH] /\
        relays c SIGWINCH (handlers y3) = true) /\
     (exists y4,
        defaultTermDriver_Disengage (d', y2) = Ret tt (d', y4) /\
        dtrace y4 = dtrace y2 ++ [EvSignalStop (Some c)] /\
        relays c SIGWINCH (handlers y4) = false)).
Proof.
  intros Hin Hout d'.
  assert (HI : exists y',
     defaultTermDriver_Init K (Some c) (d, y) = Ret (fi, fo, None) (d', y') /\
     dtrace y' = dtrace y ++ [EvOpenFile "/dev/tty" O_RDONLY 0;
                              EvOpenFile "/dev/tty" O_WRONLY 0;
                              EvSignalNotify c SIGWINCH] /\
     relays c SIGWINCH (handlers y') = true).
  { unfold defaultTermDriver_Init, defaultTermDriver_Engage, os_OpenFile,
      signal_Notify. run.
    rewrite Hin. simpl. rewrite Hout. simpl.
    eexists. split; [reflexivity | ]. simpl. split.
    - rewrite <- !app_assoc. reflexivity.
    - apply relays_after_Notify. }
  split; [exact HI | split].
  - intros t w Hd Hy Hc. destruct HI as (y' & E & _ & Hr).
    unfold initialize, call_driver, term_GetState. run.
    rewrite Hc, Hd, Hy. rewrite E. simpl.
    destruct (k_GetState K (trace w ++ [EvDriver mInit]) (Fd fi)); simpl;
      eexists _, _; (split; [reflexivity | ]); simpl;
      (repeat split; [exact Hr | rewrite <- app_assoc; reflexivity]).
  - intros y2. split.
    + unfold defaultTermDriver_Engage, signal_Notify. run.
      eexists. split; [reflexivity | ]. simpl. split; [reflexivity | ].
      apply relays_after_Notify.
    + unfold defaultTermDriver_Disengage, signal_Stop. run.
      eexists. split; [reflexivity | ]. simpl. split; [reflexivity | ].
      apply relays_after_Stop.
Qed.

Lemma default_Init_registers_winch_witness :
  exists y',
    defaultTermDriver_Init tty_kernel (Some 0%nat)
      (driver new_screen, sys boot_world) =
      Ret (Some 3, Some 4, None) ({| winch := Some 0%nat; out := Some 4 |}, y') /\
    relays 0%nat SIGWINCH (handlers y') = true.
Proof.
  destruct (default_Init_registers_winch tty_kernel (driver new_screen)
              (sys boot_world) 0%nat (Some 3) (Some 4) eq_refl eq_refl)
    as [(y' & E & _ & Hr) _].
  exists y'. split; [exact E | exact Hr].
Defined.

(** ** Joining the loops *)

Lemma set_wg_same {D} (t : tScreen D) : set_wg (wg t) t = t.
Proof. destruct t; reflexivity. Qed.

Lemma wlogs_nil (w : World) : wlogs [] w = w.
Proof. destruct w; unfold wlogs; simpl. rewrite app_nil_r. reflexivity. Qed.

Lemma wlogs_wlog (e : Event) (es : list Event) (w : World) :
  wlogs es (wlog e w) = wlogs (e :: es) w.
Proof. unfold wlogs, wlog; simpl. rewrite <- app_assoc. reflexivity. Qed.

Lemma chan_closed_mark (c : chan) (cs : list bool) :
  (c < List.length cs)%nat -> nth c (mark_closed c cs) false = true.
Proof.
  revert c. induction cs as [ | b cs IH]; intros c Hc; simpl in Hc; [lia | ].
  destruct c as [ | c]; simpl; [reflexivity | ].
  apply IH. lia.
Qed.


(** When every running loop holds a closed stop channel and the counter
    counts them, all the loops exit and the counter comes back to what it
    was without them. *)
Lemma loops_all_exit {D} (ls : list (Loop * chan)) :
  forall (t : tScreen D) (w : World) (n : nat),
    Forall (fun r => chan_closed w (snd r) = true) ls ->
    wg t = (n + List.length ls)%nat ->
    loops_observe_stop ls (t, w) =
      Ret [] (set_wg n t, wlogs (map (fun r => EvLoopExit (fst r)) ls) w).
Proof.
  induction ls as [ | [l c] ls IH]; intros t w n Hall Hwg; simpl.
  - simpl in Hwg. rewrite Nat.add_0_r in Hwg. subst n.
    rewrite set_wg_same, wlogs_nil. reflexivity.
  - inversion Hall as [ | r rs Hc Hrest]; subst. simpl in Hc.
    simpl in Hwg. rewrite Nat.add_succ_r in Hwg.
    unfold wg_Done. run. rewrite Hc. simpl. rewrite Hwg.
    rewrite (IH (set_wg (n + List.length ls) t) (wlog (EvLoopExit l) w) n).
    + rewrite wlogs_wlog. destruct t; reflexivity.
    + exact Hrest.
    + reflexivity.
Qed.

(** ** Equality of states, field by field *)

Lemma World_ext (a b : World) :
  trace a = trace b -> sys a = sys b -> chans a = chans b ->
  running a = running b -> a = b.
Proof. destruct a, b; simpl; intros; subst; reflexivity. Qed.

Lemma tScreen_ext {D} (a b : tScreen D) :
  mu a = mu b -> ti a = ti b -> t_in a = t_in b -> t_out a = t_out b ->
  cells a = cells b -> mouseFlags a = mouseFlags b ->
  pasteEnabled a = pasteEnabled b -> driver a = driver b ->
  sigwinch a = sigwinch b -> stopQ a = stopQ b -> wg a = wg b ->
  saved a = saved b -> a = b.
Proof. destruct a, b; simpl; intros; subst; reflexivity. Qed.

Lemma Ret_ext {A S1 S2} (x : A) (a a' : S1) (b b' : S2) :
  a = a' -> b = b' -> Ret x (a, b) = Ret x (a', b').
Proof. intros -> ->. reflexivity. Qed.

(** An element that satisfies [P] and sits in [l1 ++ l2], where nothing in
    [l1] satisfies [P], sits after the whole of [l1]. *)
Lemma split_after_prefix {A} (P : A -> bool) (l1 l2 pre post : list A) (e : A) :
  Forall (fun x => P x = false) l1 ->
  P e = true ->
  pre ++ e :: post = l1 ++ l2 ->
  exists mid, pre = l1 ++ mid.
Proof.
  revert pre. induction l1 as [ | a l1 IH]; intros pre Hno He Heq.
  - exists pre. reflexivity.
  - inversion Hno as [ | x xs Ha Hrest]; subst.
    destruct pre as [ | b pre]; simpl in Heq.
    + injection Heq as -> _. congruence.
    + injection Heq as -> Heq.
      destruct (IH pre Hrest He Heq) as [mid ->].
      exists mid. reflexivity.
Qed.

(** ** Disengage *)

Lemma set_wg_set_wg {D} (n m : nat) (t : tScreen D) :
  set_wg n (set_wg m t) = set_wg n t.
Proof. destruct t; reflexivity. Qed.

(** What the loops do while the caller waits, for any set of loops and any
    counter: some of them exit, each after its exit event lowering the
    counter by one; if that comes back, the counter is what it was less the
    exits; if the counter would go below zero, that is a panic; and it never
    blocks. *)
Lemma loops_observe_stop_outcome {D} (ls : list (Loop * chan)) :
  forall s : St D,
  exists exits,
    match loops_observe_stop ls s with
    | Ret _ s' =>
        s' = (set_wg (wg (fst s) - List.length exits) (fst s),
              wlogs (map EvLoopExit exits) (snd s)) /\
        (List.length exits <= wg (fst s))%nat
    | Panic _ s' => trace (snd s') = trace (snd s) ++ map EvLoopExit exits
    | Blocked _ => False
    end.
Proof.
  induction ls as [ | [l c] ls IH]; intros [t w]; simpl.
  - exists []. unfold ret. simpl. rewrite Nat.sub_0_r, set_wg_same, wlogs_nil.
    split; [reflexivity | lia].
  - unfold wg_Done. run. simpl.
    destruct (chan_closed w c); simpl.
    + destruct (wg t) as [ | n] eqn:Hwg.
      * exists [l]. reflexivity.
      * destruct (IH (set_wg n t, wlog (EvLoopExit l) w)) as [exits H].
        exists (l :: exits).
        destruct (loops_observe_stop ls (set_wg n t, wlog (EvLoopExit l) w))
          as [rest s' | msg s' | s']; simpl in *.
        -- destruct H as [-> Hle]. split; [ | lia].
           rewrite set_wg_set_wg, wlogs_wlog. reflexivity.
        -- rewrite H, <- app_assoc. reflexivity.
        -- exact H.
    + destruct (IH (t, w)) as [exits H]. exists exits.
      destruct (loops_observe_stop ls (t, w)) as [rest s' | msg s' | s'];
        simpl in *; exact H.
Qed.

Lemma no_output_no_split (l pre post : list Event) (e : Event) :
  Forall (fun x => is_tty_output x = false) l ->
  l = pre ++ e :: post ->
  is_tty_output e = true ->
  False.
Proof.
  intros Hno -> He. rewrite Forall_forall in Hno.
  rewrite (Hno e) in He; [discriminate | ].
  apply in_or_app. right. left. reflexivity.
Qed.

Lemma exits_are_no_output (exits : list Loop) :
  Forall (fun x => is_tty_output x = false) (map EvLoopExit exits).
Proof.
  apply Forall_forall. intros x Hx. apply in_map_iff in Hx.
  destruct Hx as (l & <- & _). reflexivity.
Qed.

(** Whatever [disengage] does, on whatever session: the events it adds split
    in two, a first part without anything that reaches the terminal and a
    rest, and the rest is empty unless the first part is the switch to
    non-blocking mode, the close of the session's stop channel, loop exits
    as many as the wait group counted, and the join. *)
Lemma disengage_outcome_shape {D} {drv : TermDriver D}
    (t : tScreen D) (w : World) :
  exists l1 l2,
    trace (snd (state_of (disengage (t, w)))) = trace w ++ l1 ++ l2 /\
    Forall (fun x => is_tty_output x = false) l1 /\
    (l2 = [] \/
     exists c exits,
       stopQ t = Some c /\
       wg t = List.length exits /\
       l1 = [EvNonBlocking true; EvClose c] ++ map EvLoopExit exits ++ [EvJoined]).
Proof.
  unfold disengage, t_Lock, t_Unlock, nonBlocking, close, wg_Wait, call_driver,
    cells_Resize, TPuts, enableMouse, enablePasting, term_Restore. run.
  destruct (mu t).
  { exists [], []. simpl. rewrite app_nil_r. repeat split; [constructor | left; reflexivity]. }
  simpl.
  destruct (stopQ t) as [c | ] eqn:Hq; simpl.
  2:{ exists [EvNonBlocking true], []. simpl.
      repeat split; [repeat constructor | left; reflexivity]. }
  destruct (chan_closed _ c); simpl.
  { exists [EvNonBlocking true], []. simpl.
    repeat split; [repeat constructor | left; reflexivity]. }
  match goal with
  | |- context [loops_observe_stop ?ls ?s] =>
      destruct (loops_observe_stop_outcome ls s) as [exits H];
      destruct (loops_observe_stop ls s) as [staying s' | msg s' | s']
  end; simpl in *.
  - destruct H as [-> Hle]. simpl.
    destruct (wg t - List.length exits)%nat eqn:Hz; simpl.
    + assert (Hwg : wg t = List.length exits) by lia.
      assert (Hpre : Forall (fun x => is_tty_output x = false)
                       ([EvNonBlocking true; EvClose c] ++
                        map EvLoopExit exits ++ [EvJoined])).
      { repeat constructor. apply Forall_app. split.
        - apply exits_are_no_output.
        - repeat constructor. }
      destruct (Disengage (driver t, sys w)) as [[] [d' y'] | msg [d' y'] | [d' y']];
        simpl.
      * destruct (saved t) as [st | ]; simpl;
          eexists _, _;
          (split; [ | split; [exact Hpre | right; exists c, exits; repeat split; exact Hwg]]);
          repeat rewrite <- app_assoc; simpl; repeat rewrite <- app_assoc; reflexivity.
      * eexists _, _.
        split; [ | split; [exact Hpre | right; exists c, exits; repeat split; exact Hwg]].
        repeat rewrite <- app_assoc; simpl; repeat rewrite <- app_assoc; reflexivity.
      * eexists _, _.
        split; [ | split; [exact Hpre | right; exists c, exits; repeat split; exact Hwg]].
        repeat rewrite <- app_assoc; simpl; repeat rewrite <- app_assoc; reflexivity.
    + exists ([EvNonBlocking true; EvClose c] ++ map EvLoopExit exits), [].
      split; [ | split; [ | left; reflexivity]].
      * rewrite app_nil_r. repeat rewrite <- app_assoc. reflexivity.
      * repeat constructor. apply exits_are_no_output.
  - exists ([EvNonBlocking true; EvClose c] ++ map EvLoopExit exits), [].
    split; [ | split; [ | left; reflexivity]].
    + rewrite H. rewrite app_nil_r. repeat rewrite <- app_assoc. reflexivity.
    + repeat constructor. apply exits_are_no_output.
  - contradiction.
Qed.

(** From an engaged session whose loops all hold the stop channel and whose
    saved attributes are there, [disengage] returns, and this is the state
    it leaves. *)
Lemma disengage_returns {D} {drv : TermDriver D}
    (t : tScreen D) (w : World) (c : chan) (d' : D) (y' : Sys) (st : term_State) :
  mu t = false ->
  stopQ t = Some c ->
  nth_error (chans w) c = Some false ->
  Forall (fun r => snd r = c) (running w) ->
  wg t = List.length (running w) ->
  Disengage (driver t, sys w) = Ret tt (d', y') ->
  saved t = Some st ->
  disengage (t, w) =
    Ret tt
      (set_cells {| cb_w := 0; cb_h := 0 |}
         (set_driver d' (set_wg 0 (set_stopQ None t))),
       {| trace := trace w ++ [EvNonBlocking true; EvClose c] ++
                   map (fun r => EvLoopExit (fst r)) (running w) ++
                   EvJoined :: disengage_tail t;
          sys := y';
          chans := mark_closed c (chans w);
          running := [] |}).
Proof.
  intros Hmu Hq Hopen Hall Hwg Hdrv Hsaved.
  assert (Hlt : (c < List.length (chans w))%nat).
  { apply nth_error_Some. rewrite Hopen. discriminate. }
  assert (Hnot : chan_closed w c = false).
  { unfold chan_closed. apply (nth_error_nth _ _ false) in Hopen. exact Hopen. }
  unfold disengage, t_Lock, t_Unlock, nonBlocking, close, wg_Wait. run.
  rewrite Hmu. simpl. rewrite Hq. simpl.
  unfold chan_closed at 1. simpl. fold (chan_closed w c). rewrite Hnot. simpl.
  rewrite (loops_all_exit (running w) _ _ 0%nat).
  - simpl. unfold call_driver. simpl. rewrite Hdrv. simpl.
    unfold term_Restore. rewrite Hsaved. run. apply Ret_ext.
    + apply tScreen_ext; simpl; congruence.
    + apply World_ext; simpl; try reflexivity.
      unfold disengage_tail. rewrite Hsaved.
      repeat rewrite <- app_assoc. reflexivity.
  - apply Forall_forall. intros r Hr.
    rewrite Forall_forall in Hall. rewrite (Hall r Hr).
    unfold chan_closed. simpl. apply chan_closed_mark. exact Hlt.
  - simpl. exact Hwg.
Qed.

(** From the same session without saved attributes, [disengage] does all the
    same up to the restoration, and there it panics. *)
Lemma disengage_restore_panics {D} {drv : TermDriver D}
    (t : tScreen D) (w : World) (c : chan) (d' : D) (y' : Sys) :
  mu t = false ->
  stopQ t = Some c ->
  nth_error (chans w) c = Some false ->
  Forall (fun r => snd r = c) (running w) ->
  wg t = List.length (running w) ->
  Disengage (driver t, sys w) = Ret tt (d', y') ->
  saved t = None ->
  disengage (t, w) =
    Panic "runtime error: invalid memory address or nil pointer dereference"
      (set_cells {| cb_w := 0; cb_h := 0 |}
         (set_driver d' (set_wg 0 (set_stopQ None t))),
       {| trace := trace w ++ [EvNonBlocking true; EvClose c] ++
                   map (fun r => EvLoopExit (fst r)) (running w) ++
                   EvJoined :: exit_events t;
          sys := y';
          chans := mark_closed c (chans w);
          running := [] |}).
Proof.
  intros Hmu Hq Hopen Hall Hwg Hdrv Hsaved.
  assert (Hlt : (c < List.length (chans w))%nat).
  { apply nth_error_Some. rewrite Hopen. discriminate. }
  assert (Hnot : chan_closed w c = false).
  { unfold chan_closed. apply (nth_error_nth _ _ false) in Hopen. exact Hopen. }
  unfold disengage, t_Lock, t_Unlock, nonBlocking, close, wg_Wait. run.
  rewrite Hmu. simpl. rewrite Hq. simpl.
  unfold chan_closed at 1. simpl. fold (chan_closed w c). rewrite Hnot. simpl.
  rewrite (loops_all_exit (running w) _ _ 0%nat).
  - simpl. unfold call_driver. simpl. rewrite Hdrv. simpl.
    unfold term_Restore. rewrite Hsaved. run.
    apply f_equal. apply f_equal2.
    + apply tScreen_ext; simpl; congruence.
    + apply World_ext; simpl; try reflexivity.
      unfold exit_events. repeat rewrite <- app_assoc. reflexivity.
  - apply Forall_forall. intros r Hr.
    rewrite Forall_forall in Hall. rewrite (Hall r Hr).
    unfold chan_closed. simpl. apply chan_closed_mark. exact Hlt.
  - simpl. exact Hwg.
Qed.

(** C3.  The steps of [disengage] come in a fixed order.  From the engaged
    state, with the driver's hook returning: non-blocking mode on, the stop
    channel closed, both loops out and joined, and only then the driver's
    hook, blocking mode, the buffer emptied, the exit capability strings,
    mouse and paste off and, last, the restoration of the saved attributes;
    the call returns if there are saved attributes and panics in that last
    step if there are none.  And on any session, however the call ends
    (return, panic or a wait that never ends): whatever it sends to the
    terminal, a capability string or the restoration, comes after the switch
    to non-blocking mode, the close of the stop channel, and a join at which
    every loop the wait group counted had exited. *)
Theorem disengage_shutdown_order {D} {drv : TermDriver D}
    (t : tScreen D) (w : World) (c : chan) (d' : D) (y' : Sys) :
  mu t = false ->
  stopQ t = Some c ->
  nth_error (chans w) c = Some false ->
  Forall (fun r => snd r = c) (running w) ->
  wg t = List.length (running w) ->
  Disengage (driver t, sys w) = Ret tt (d', y') ->
  (exists t' w',
     match saved t with
     | Some st =>
         disengage (t, w) = Ret tt (t', w') /\
         trace w' =
           trace w ++
           [EvNonBlocking true; EvClose c] ++
           map (fun r => EvLoopExit (fst r)) (running w) ++
           [EvJoined; EvDriver mDisengage; EvNonBlocking false; EvCellsResize 0 0;
            EvTPuts (ShowCursor (ti t)); EvTPuts (AttrOff (ti t));
            EvTPuts (Clear (ti t)); EvTPuts (ExitCA (ti t));
            EvTPuts (ExitKeypad (ti t)); EvEnableMouse 0; EvEnablePasting false;
            EvRestore (Fd (t_in t)) (Some st)]
     | None =>
         disengage (t, w) =
           Panic "runtime error: invalid memory address or nil pointer dereference"
                 (t', w') /\
         trace w' =
           trace w ++
           [EvNonBlocking true; EvClose c] ++
           map (fun r => EvLoopExit (fst r)) (running w) ++
           [EvJoined; EvDriver mDisengage; EvNonBlocking false; EvCellsResize 0 0;
            EvTPuts (ShowCursor (ti t)); EvTPuts (AttrOff (ti t));
            EvTPuts (Clear (ti t)); EvTPuts (ExitCA (ti t));
            EvTPuts (ExitKeypad (ti t)); EvEnableMouse 0; EvEnablePasting false]
     end /\
     running w' = [] /\
     wg t' = 0%nat /\
     stopQ t' = None /\
     chan_closed w' c = true) /\
  (forall (ta : tScreen D) (wa : World),
     exists new,
       trace (snd (state_of (disengage (ta, wa)))) = trace wa ++ new /\
       forall pre e post,
         new = pre ++ e :: post ->
         is_tty_output e = true ->
         exists ca exits mid,
           stopQ ta = Some ca /\
           wg ta = List.length exits /\
           pre = [EvNonBlocking true; EvClose ca] ++
                 map EvLoopExit exits ++ EvJoined :: mid).
Proof.
  intros Hmu Hq Hopen Hall Hwg Hdrv. split.
  - assert (Hcl : nth c (mark_closed c (chans w)) false = true).
    { apply chan_closed_mark. apply nth_error_Some. rewrite Hopen. discriminate. }
    destruct (saved t) as [st | ] eqn:Hsaved.
    + eexists _, _. split; [split | ].
      * apply (disengage_returns t w c d' y' st); assumption.
      * simpl. unfold disengage_tail. rewrite Hsaved. reflexivity.
      * simpl. repeat split. exact Hcl.
    + eexists _, _. split; [split | ].
      * apply (disengage_restore_panics t w c d' y'); assumption.
      * reflexivity.
      * simpl. repeat split. exact Hcl.
  - intros ta wa.
    destruct (disengage_outcome_shape ta wa) as (l1 & l2 & Htr & Hno & Hl2).
    exists (l1 ++ l2). split; [exact Htr | ].
    intros pre e post Heq He.
    destruct Hl2 as [-> | (ca & exits & Hqa & Hwa & ->)].
    + rewrite app_nil_r in Heq.
      exfalso. exact (no_output_no_split l1 pre post e Hno Heq He).
    + symmetry in Heq.
      destruct (split_after_prefix is_tty_output _ _ pre post e Hno He Heq)
        as [mid ->].
      exists ca, exits, mid. repeat split; try assumption.
      simpl. rewrite <- app_assoc. reflexivity.
Qed.

Lemma disengage_shutdown_order_witness :
  exists t' w',
    disengage engaged = Ret tt (t', w') /\
    trace w' =
      trace (snd engaged) ++
      [EvNonBlocking true; EvClose 1%nat; EvLoopExit inputLoop;
       EvLoopExit mainLoop; EvJoined; EvDriver mDisengage;
       EvNonBlocking false; EvCellsResize 0 0;
       EvTPuts "cnorm"; EvTPuts "sgr0"; EvTPuts "clear"; EvTPuts "rmcup";
       EvTPuts "rmkx"; EvEnableMouse 0; EvEnablePasting false;
       EvRestore 3 (Some {| termios := [19200; 5; 191; 35387] |})].
Proof.
  destruct (disengage_shutdown_order (drv := tty_driver)
              (fst engaged) (snd engaged) 1%nat
              {| winch := Some 0%nat; out := Some 4 |}
              {| dtrace := [EvOpenFile "/dev/tty" 0 0; EvOpenFile "/dev/tty" 1 0;
                            EvSignalNotify 0%nat SIGWINCH;
                            EvSignalNotify 0%nat SIGWINCH;
                            EvSignalStop (Some 0%nat)];
                 handlers := [] |}
              eq_refl eq_refl eq_refl
              (Forall_cons (inputLoop, 1%nat) eq_refl
                 (Forall_cons (mainLoop, 1%nat) eq_refl (Forall_nil _)))
              eq_refl eq_refl)
    as [(t' & w' & [E Htr] & _) _].
  exists t', w'. split; [exact E | exact Htr].
Defined.

(** ** Engage *)

Arguments getWinSize {D drv} K _ : simpl never.

(** From a disengaged session on which raw mode can be had and whose driver
    hooks return, [engage] succeeds, and this is the state it leaves;
    [(qw, qh, qerr)] is what the geometry query answered and [s1] the state
    right after the query. *)
Lemma engage_returns {D} {drv : TermDriver D} (K : Kernel)
    (t : tScreen D) (w : World) r d1 y1 d2 y2 :
  mu t = false ->
  stopQ t = None ->
  k_MakeRaw K (trace w) (Fd (t_in t)) = None ->
  WinSize (driver t, sys w) = Ret r (d1, y1) ->
  Engage (d1, y1) = Ret tt (d2, y2) ->
  exists qw qh qerr s1,
    getWinSize K (set_mu true t, wlog (EvMakeRaw (Fd (t_in t))) w) =
      Ret (qw, qh, qerr) s1 /\
    engage K (t, w) =
      Ret None
        (set_wg (wg t + 2)
           (set_driver d2
              (set_stopQ (Some (List.length (chans w)))
                 (if usable_size qw qh qerr
                  then set_cells {| cb_w := qw; cb_h := qh |} t else t))),
         {| trace := trace (snd s1) ++
                     (if usable_size qw qh qerr then [EvCellsResize qw qh] else []) ++
                     engage_tail t (List.length (chans w));
            sys := y2;
            chans := chans w ++ [false];
            running := running w ++ [(inputLoop, List.length (chans w));
                                     (mainLoop, List.length (chans w))] |}).
Proof.
  intros Hmu Hq Hraw Hws Hen.
  destruct r as [[qw0 qh0] qerr0].
  pose proof (getWinSize_spec K (set_mu true t) (wlog (EvMakeRaw (Fd (t_in t))) w)
                qw0 qh0 qerr0 d1 y1 Hws) as G.
  cbv zeta in G.
  destruct (is_ErrWinSizeUnused qerr0);
    match type of G with
    | _ = Ret ?q ?s =>
        destruct q as [[qw qh] qerr] eqn:Hans;
        exists qw, qh, qerr, s; split; [exact G | ]
    end;
    unfold engage, t_Lock, t_Unlock, term_MakeRaw, make_chan, go, wg_Add,
      nonBlocking, enableMouse, enablePasting, TPuts, cells_Resize; run;
    rewrite Hmu; simpl; rewrite Hq; simpl; rewrite Hraw; simpl;
    rewrite G; simpl;
    unfold usable_size;
    destruct (is_nil qerr && negb (qw =? 0) && negb (qh =? 0)); simpl;
    unfold call_driver; simpl; rewrite Hen; simpl;
    (apply Ret_ext;
     [ apply tScreen_ext; simpl; first [reflexivity | congruence]
     | apply World_ext; simpl; try reflexivity;
       unfold engage_tail; repeat rewrite <- app_assoc; reflexivity ]).
Qed.

Lemma usable_size_spec (qw qh : Z) (qerr : option error) :
  usable_size qw qh qerr = true <-> qerr = None /\ qw <> 0 /\ qh <> 0.
Proof.
  unfold usable_size. rewrite !andb_true_iff, !negb_true_iff, !Z.eqb_neq.
  destruct qerr; simpl; intuition congruence.
Qed.

Lemma no_resize_in_engage_tail {D} (t : tScreen D) (c : chan) (a b : Z) :
  ~ In (EvCellsResize a b) (engage_tail t c).
Proof.
  unfold engage_tail. simpl. intuition discriminate.
Qed.

(** C6.  During a successful [engage] the cell buffer is resized to the
    answer of the geometry query exactly when the answer carries no error
    and neither dimension is zero.  Otherwise the buffer keeps its geometry,
    no resize happens, and [engage] returns nil all the same. *)
Theorem engage_resizes_iff_usable {D} {drv : TermDriver D} (K : Kernel)
    (t : tScreen D) (w : World) r d1 y1 d2 y2 :
  mu t = false ->
  stopQ t = None ->
  k_MakeRaw K (trace w) (Fd (t_in t)) = None ->
  WinSize (driver t, sys w) = Ret r (d1, y1) ->
  Engage (d1, y1) = Ret tt (d2, y2) ->
  exists qw qh qerr s1 t' w',
    getWinSize K (set_mu true t, wlog (EvMakeRaw (Fd (t_in t))) w) =
      Ret (qw, qh, qerr) s1 /\
    engage K (t, w) = Ret None (t', w') /\
    (qerr = None /\ qw <> 0 /\ qh <> 0 ->
       cells t' = {| cb_w := qw; cb_h := qh |} /\
       trace w' = trace (snd s1) ++
                  EvCellsResize qw qh :: engage_tail t (List.length (chans w))) /\
    (~ (qerr = None /\ qw <> 0 /\ qh <> 0) ->
       cells t' = cells t /\
       trace w' = trace (snd s1) ++ engage_tail t (List.length (chans w))) /\
    (forall a b, ~ In (EvCellsResize a b) (engage_tail t (List.length (chans w)))).
Proof.
  intros Hmu Hq Hraw Hws Hen.
  destruct (engage_returns K t w r d1 y1 d2 y2 Hmu Hq Hraw Hws Hen)
    as (qw & qh & qerr & s1 & G & E).
  exists qw, qh, qerr, s1. eexists _, _.
  split; [exact G | split; [exact E | ]].
  pose proof (usable_size_spec qw qh qerr) as U.
  destruct (usable_size qw qh qerr); simpl.
  - split; [ | split].
    + intros _. split; reflexivity.
    + intros N. exfalso. apply N. apply U. reflexivity.
    + intros a b. apply no_resize_in_engage_tail.
  - split; [ | split].
    + intros P. apply U in P. discriminate P.
    + intros _. split; reflexivity.
    + intros a b. apply no_resize_in_engage_tail.
Qed.

Lemma engage_resizes_iff_usable_witness :
  exists t' w',
    engage tty_kernel ready = Ret None (t', w') /\
    cells t' = {| cb_w := 80; cb_h := 24 |}.
Proof.
  destruct (engage_resizes_iff_usable (drv := tty_driver) tty_kernel
              (fst ready) (snd ready)
              (0, 0, Some ErrWinSizeUnused)
              {| winch := Some 0%nat; out := Some 4 |}
              {| dtrace := [EvOpenFile "/dev/tty" 0 0; EvOpenFile "/dev/tty" 1 0;
                            EvSignalNotify 0%nat SIGWINCH];
                 handlers := [(0%nat, SIGWINCH)] |}
              {| winch := Some 0%nat; out := Some 4 |}
              {| dtrace := [EvOpenFile "/dev/tty" 0 0; EvOpenFile "/dev/tty" 1 0;
                            EvSignalNotify 0%nat SIGWINCH;
                            EvSignalNotify 0%nat SIGWINCH];
                 handlers := [(0%nat, SIGWINCH)] |}
              eq_refl eq_refl eq_refl eq_refl eq_refl)
    as (qw & qh & qerr & s1 & t' & w' & G & E & Hyes & _).
  exists t', w'. split; [exact E | ].
  vm_compute in G. injection G as Hw Hh He Hs.
  subst qw qh qerr.
  destruct Hyes as [Hc _].
  - split; [reflexivity | split; discriminate].
  - exact Hc.
Defined.

(** ** Re-engaging *)





(** The hooks of the default driver return once [Init] has stored a resize
    channel. *)
Lemma default_hooks_return (K : Kernel) :
  hooks_return (drv := defaultTermDriver_TermDriver K) (fun d => winch d <> None).
Proof.
  constructor; intros [[c | ] o] y H; simpl in H; try congruence; simpl.
  - eexists _, _, _. split; [reflexivity | exact H].
  - unfold defaultTermDriver_Engage, signal_Notify. run.
    eexists _, _. split; [reflexivity | exact H].
  - unfold defaultTermDriver_Disengage, signal_Stop. run.
    eexists _, _. split; [reflexivity | exact H].
Qed.

Lemma Some_0_not_None : Some 0%nat <> @None chan.
Proof. discriminate. Qed.


(** A zero-by-zero answer is not applied: on a terminal that reports no
    geometry the buffer keeps the size it had. *)
Example engage_ignores_zero_by_zero :
  let blank := {| k_OpenFile := k_OpenFile tty_kernel;
                  k_Getenv := k_Getenv tty_kernel;
                  k_MakeRaw := k_MakeRaw tty_kernel;
                  k_GetState := k_GetState tty_kernel;
                  k_GetSize := fun _ _ => (0, 0, None) |} in
  let sized := (set_cells {| cb_w := 132; cb_h := 43 |} (fst ready), snd ready) in
  exists t' w',
    engage blank sized = Ret None (t', w') /\
    cells t' = {| cb_w := 132; cb_h := 43 |}.
Proof. eexists _, _. split; vm_compute; reflexivity. Qed.

(** * Further properties *)

(** ** The default driver: registrations *)

Lemma relays_cons (c' c : chan) (hs : list (chan * Signal)) :
  relays c' SIGWINCH ((c, SIGWINCH) :: hs) =
    (Nat.eqb c' c || relays c' SIGWINCH hs).
Proof.
  unfold relays. simpl. rewrite andb_true_r, (Nat.eqb_sym c c'). reflexivity.
Qed.

Lemma relays_filter (c' c : chan) (hs : list (chan * Signal)) :
  relays c' SIGWINCH (filter (fun r => negb (Nat.eqb (fst r) c)) hs) =
    (negb (Nat.eqb c' c) && relays c' SIGWINCH hs).
Proof.
  induction hs as [ | [c0 []] hs IH].
  - simpl. rewrite andb_false_r. reflexivity.
  - simpl filter. destruct (Nat.eqb c0 c) eqn:E0; simpl negb; cbv iota.
    + rewrite IH, relays_cons. apply Nat.eqb_eq in E0. subst c0.
      destruct (Nat.eqb c' c); reflexivity.
    + rewrite !relays_cons, IH.
      destruct (Nat.eqb c' c) eqn:E1; simpl; [ | reflexivity].
      apply Nat.eqb_eq in E1. subst c'.
      rewrite Nat.eqb_sym, E0. reflexivity.
Qed.

(** X1.  On a default driver that holds the resize channel [c], [Engage]
    makes the signal relayed to [c] and [Disengage] makes it not relayed to
    [c]; neither changes what is relayed to any other channel, and a second
    [Engage] in a row changes no registration. *)
Theorem default_driver_registrations (c c' : chan) (o : option File) (y : Sys) :
  let d := {| winch := Some c; out := o |} in
  let after_Engage := snd (state_of (defaultTermDriver_Engage (d, y))) in
  let after_Disengage := snd (state_of (defaultTermDriver_Disengage (d, y))) in
  relays c' SIGWINCH (handlers after_Engage) =
    (Nat.eqb c' c || relays c' SIGWINCH (handlers y)) /\
  relays c' SIGWINCH (handlers after_Disengage) =
    (negb (Nat.eqb c' c) && relays c' SIGWINCH (handlers y)) /\
  handlers (snd (state_of (defaultTermDriver_Engage (d, after_Engage)))) =
    handlers after_Engage /\
  relays c SIGWINCH
    (handlers (snd (state_of (defaultTermDriver_Disengage (d, after_Engage))))) = false.
Proof.
  unfold defaultTermDriver_Engage, defaultTermDriver_Disengage,
    signal_Notify, signal_Stop. run.
  repeat split.
  - destruct (relays c SIGWINCH (handlers y)) eqn:R.
    + destruct (Nat.eqb c' c) eqn:E; [ | reflexivity].
      apply Nat.eqb_eq in E. subst c'. exact R.
    + apply relays_cons.
  - apply relays_filter.
  - rewrite relays_after_Notify. reflexivity.
  - rewrite relays_filter, Nat.eqb_refl. reflexivity.
Qed.

(** ** The default driver: [Init] *)

(** X2.  What a returned [Init] of the default driver tells.  With an error,
    the driver record and the registrations are what they were, and either
    only the open for reading was tried (and no output handle is returned)
    or both opens were.  Without an error, a resize channel was given, it is
    stored with the output handle, and it is registered. *)
Theorem default_Init_result_inv (K : Kernel) (winch0 : option chan)
    (d : defaultTermDriver) (y : Sys) i o err d' y' :
  defaultTermDriver_Init K winch0 (d, y) = Ret (i, o, err) (d', y') ->
  (err <> None ->
     d' = d /\ handlers y' = handlers y /\
     ((o = None /\
       dtrace y' = dtrace y ++ [EvOpenFile "/dev/tty" O_RDONLY 0]) \/
      dtrace y' = dtrace y ++ [EvOpenFile "/dev/tty" O_RDONLY 0;
                               EvOpenFile "/dev/tty" O_WRONLY 0])) /\
  (err = None ->
     exists c,
       winch0 = Some c /\
       d' = {| winch := Some c; out := o |} /\
       relays c SIGWINCH (handlers y') = true /\
       dtrace y' = dtrace y ++ [EvOpenFile "/dev/tty" O_RDONLY 0;
                                EvOpenFile "/dev/tty" O_WRONLY 0;
                                EvSignalNotify c SIGWINCH]).
Proof.
  unfold defaultTermDriver_Init, defaultTermDriver_Engage, os_OpenFile,
    signal_Notify. run.
  destruct (k_OpenFile K (dtrace y) "/dev/tty" O_RDONLY 0) as [fi [e1 | ]]; simpl.
  - intros H. injection H as <- <- <- <- <-. split; [ | discriminate].
    intros _. destruct d. repeat split. left. split; reflexivity.
  - destruct (k_OpenFile K (dtrace y ++ [EvOpenFile "/dev/tty" O_RDONLY 0])
                "/dev/tty" O_WRONLY 0) as [fo [e2 | ]]; simpl.
    + intros H. injection H as <- <- <- <- <-. split; [ | discriminate].
      intros _. destruct d. repeat split. right.
      simpl. repeat rewrite <- app_assoc. reflexivity.
    + destruct winch0 as [c | ]; simpl; [ | discriminate].
      intros H. injection H as <- <- <- <- <-. split; [congruence | ].
      intros _. exists c. repeat split.
      * apply relays_after_Notify.
      * simpl. repeat rewrite <- app_assoc. reflexivity.
Qed.

Lemma default_Init_result_inv_witness :
  defaultTermDriver_Init read_only_tty_kernel (Some 0%nat)
    (driver new_screen, sys boot_world) =
    Ret (Some 3, None, Some (Errno 13))
        (driver new_screen,
         {| dtrace := [EvOpenFile "/dev/tty" 0 0; EvOpenFile "/dev/tty" 1 0];
            handlers := [] |}) /\
  handlers {| dtrace := [EvOpenFile "/dev/tty" 0 0; EvOpenFile "/dev/tty" 1 0];
              handlers := [] |} = handlers (sys boot_world).
Proof.
  assert (E : defaultTermDriver_Init read_only_tty_kernel (Some 0%nat)
                (driver new_screen, sys boot_world) =
              Ret (Some 3, None, Some (Errno 13))
                  (driver new_screen,
                   {| dtrace := [EvOpenFile "/dev/tty" 0 0; EvOpenFile "/dev/tty" 1 0];
                      handlers := [] |}))
    by reflexivity.
  split; [exact E | ].
  destruct (default_Init_result_inv _ _ _ _ _ _ _ _ _ E) as [Hfail _].
  destruct Hfail as (_ & Hh & _); [discriminate | exact Hh].
Defined.

(** X3.  Without a resize channel the default driver cannot initialise: with
    both opens successful, [Init] called with a nil channel stores the nil
    channel and the output handle and then panics in [signal.Notify], with
    nothing registered; [initialize] on a session whose resize channel is nil
    panics likewise and assigns neither handle nor saved attributes. *)
Theorem default_Init_nil_channel_panics (K : Kernel) (d : defaultTermDriver)
    (y : Sys) (fi fo : option File) :
  k_OpenFile K (dtrace y) "/dev/tty" O_RDONLY 0 = (fi, None) ->
  k_OpenFile K (dtrace y ++ [EvOpenFile "/dev/tty" O_RDONLY 0])
             "/dev/tty" O_WRONLY 0 = (fo, None) ->
  let y' := {| dtrace := dtrace y ++ [EvOpenFile "/dev/tty" O_RDONLY 0;
                                      EvOpenFile "/dev/tty" O_WRONLY 0];
               handlers := handlers y |} in
  defaultTermDriver_Init K None (d, y) =
    Panic "os/signal: Notify using nil channel"
          ({| winch := None; out := fo |}, y') /\
  forall (t : tScreen defaultTermDriver) (w : World),
    driver t = d -> sys w = y -> sigwinch t = None ->
    exists t' w',
      initialize (drv := defaultTermDriver_TermDriver K) K (t, w) =
        Panic "os/signal: Notify using nil channel" (t', w') /\
      t_in t' = t_in t /\ t_out t' = t_out t /\ saved t' = saved t /\
      trace w' = trace w ++ [EvDriver mInit].
Proof.
  intros Hin Hout y'.
  assert (E : defaultTermDriver_Init K None (d, y) =
              Panic "os/signal: Notify using nil channel"
                    ({| winch := None; out := fo |}, y')).
  { unfold defaultTermDriver_Init, defaultTermDriver_Engage, os_OpenFile,
      signal_Notify. run.
    rewrite Hin. simpl. rewrite Hout. simpl. unfold y', dlog. simpl.
    repeat rewrite <- app_assoc. reflexivity. }
  split; [exact E | ].
  intros t w Hd Hy Hc.
  unfold initialize, call_driver. run.
  rewrite Hc, Hd, Hy, E. simpl.
  eexists _, _. split; [reflexivity | ]. simpl. repeat split.
Qed.

Lemma default_Init_nil_channel_panics_witness :
  defaultTermDriver_Init tty_kernel None (driver new_screen, sys boot_world) =
    Panic "os/signal: Notify using nil channel"
          ({| winch := None; out := Some 4 |},
           {| dtrace := [EvOpenFile "/dev/tty" 0 0; EvOpenFile "/dev/tty" 1 0];
              handlers := [] |}).
Proof.
  exact (proj1 (default_Init_nil_channel_panics tty_kernel (driver new_screen)
                  (sys boot_world) (Some 3) (Some 4) eq_refl eq_refl)).
Defined.

(** ** The geometry query *)

Lemma set_driver_same {D} (t : tScreen D) : set_driver (driver t) t = t.
Proof. destruct t; reflexivity. Qed.

(** X4.  An answer of the driver that is not the sentinel itself, be it a
    geometry, an error, or an error with the very text of the sentinel, comes
    back from [getWinSize] as it is, and the platform is not asked. *)
Theorem getWinSize_passes_driver_answer {D} {drv : TermDriver D} (K : Kernel)
    (t : tScreen D) (w : World) qw qh qerr d' y' :
  WinSize (driver t, sys w) = Ret (qw, qh, qerr) (d', y') ->
  qerr <> Some ErrWinSizeUnused ->
  getWinSize K (t, w) =
    Ret (qw, qh, qerr) (set_driver d' t, set_sys y' (wlog (EvDriver mWinSize) w)).
Proof.
  intros E Hne. rewrite (getWinSize_spec K t w qw qh qerr d' y' E). cbv zeta.
  destruct qerr as [[ | msg | code] | ]; simpl; try reflexivity.
  congruence.
Qed.

Lemma getWinSize_passes_driver_answer_witness :
  let lookalike := Some (errors_New "driver does not provide WinSize") in
  getWinSize tty_kernel (pty_screen (0, 0, lookalike), boot_world) =
    Ret (0, 0, lookalike)
        (pty_screen (0, 0, lookalike), wlog (EvDriver mWinSize) boot_world).
Proof.
  exact (getWinSize_passes_driver_answer (drv := ptyDriver) tty_kernel
           (pty_screen (0, 0, Some (errors_New "driver does not provide WinSize")))
           boot_world 0 0 _ _ _ eq_refl
           (fun H => eq_ind (Some (errors_New "driver does not provide WinSize"))
                       (fun e => match e with
                                 | Some (errors_New _) => True
                                 | _ => False
                                 end) I _ H)).
Defined.

(** X5.  On the default driver, of whatever kernel, [getWinSize] is the
    platform's answer about the descriptor of the input handle: the driver
    is asked first, says nothing of its own, and is left as it was. *)
Theorem default_getWinSize_is_platform_query (K K' : Kernel)
    (t : tScreen defaultTermDriver) (w : World) :
  getWinSize (drv := defaultTermDriver_TermDriver K') K (t, w) =
    Ret (k_GetSize K (trace w ++ [EvDriver mWinSize]) (Fd (t_in t)))
        (t, wlog (EvGetSize (Fd (t_in t))) (wlog (EvDriver mWinSize) w)).
Proof.
  rewrite (getWinSize_spec (drv := defaultTermDriver_TermDriver K') K t w
             0 0 (Some ErrWinSizeUnused) (driver t) (sys w) eq_refl).
  cbv zeta. simpl. apply Ret_ext.
  - apply set_driver_same.
  - apply World_ext; reflexivity.
Qed.

(** ** Engage: failures *)

(** X6.  When [engage] returns an error, the session record, the channels,
    the loops and the driver are what they were, and the error is one of
    two: "already engaged" on an engaged session, with no event at all, or
    the error of the raw-mode switch, with that call as the only event.  So
    no path returns an error after anything else was done. *)
Theorem engage_error_leaves_session {D} {drv : TermDriver D} (K : Kernel)
    (t : tScreen D) (w : World) (e : error) (t' : tScreen D) (w' : World) :
  engage K (t, w) = Ret (Some e) (t', w') ->
  t' = t /\ sys w' = sys w /\ chans w' = chans w /\ running w' = running w /\
  ((stopQ t <> None /\ e = errors_New "already engaged" /\ w' = w) \/
   (stopQ t = None /\
    k_MakeRaw K (trace w) (Fd (t_in t)) = Some e /\
    trace w' = trace w ++ [EvMakeRaw (Fd (t_in t))])).
Proof.
  unfold engage, t_Lock, t_Unlock, term_MakeRaw, getWinSize, call_driver,
    term_GetSize, make_chan, go, wg_Add,
    nonBlocking, enableMouse, enablePasting, TPuts, cells_Resize. run.
  destruct (mu t) eqn:Hmu; [discriminate | ]. simpl.
  destruct (stopQ t) as [c | ] eqn:Hq; simpl.
  - intros H. injection H as <- <- <-.
    rewrite set_mu_unlock by exact Hmu.
    repeat split. left. repeat split. discriminate.
  - destruct (k_MakeRaw K (trace w) (Fd (t_in t))) as [e0 | ] eqn:Hraw; simpl.
    + intros H. injection H as <- <- <-.
      rewrite set_mu_unlock by exact Hmu.
      repeat split. right. repeat split.
    + destruct (WinSize (driver t, sys w)) as [[[qw0 qh0] qerr0] [d1 y1] | msg s | s];
        simpl; try discriminate.
      destruct (is_ErrWinSizeUnused qerr0); simpl;
        [ destruct (k_GetSize K ((trace w ++ [EvMakeRaw (Fd (t_in t))]) ++ [EvDriver mWinSize])
                              (Fd (t_in t))) as [[qw qh] qerr]
        | ];
        simpl;
        (destruct (is_nil _ && negb (_ =? 0) && negb (_ =? 0)); simpl;
         destruct (Engage (d1, y1)) as [[] [d2 y2] | msg s | s]; simpl;
         discriminate).
Qed.

Lemma engage_error_leaves_session_witness :
  engage tty_kernel engaged = Ret (Some (errors_New "already engaged")) engaged /\
  fst engaged = fst engaged /\
  running (snd engaged) = [(inputLoop, 1%nat); (mainLoop, 1%nat)].
Proof.
  assert (E : engage tty_kernel engaged =
              Ret (Some (errors_New "already engaged")) (fst engaged, snd engaged))
    by reflexivity.
  split; [exact E | ].
  destruct (engage_error_leaves_session tty_kernel _ _ _ _ _ E)
    as (Ht & _ & _ & Hr & _).
  split; [exact Ht | exact Hr].
Defined.

(** X7.  [engage] gives the lock back on every way out: called with the lock
    free, it holds no lock when it returns, with or without an error, and
    none when it panics (a driver hook panicked), the deferred unlock having
    run.  It can only fail to come back if a driver hook does. *)
Theorem engage_releases_lock {D} {drv : TermDriver D} (K : Kernel)
    (t : tScreen D) (w : World) :
  mu t = false ->
  match engage K (t, w) with
  | Ret _ s => mu (fst s) = false
  | Panic _ s => mu (fst s) = false
  | Blocked _ =>
      (exists s, WinSize (driver t, sys w) = Blocked s) \/
      (exists r d1 y1 s,
         WinSize (driver t, sys w) = Ret r (d1, y1) /\ Engage (d1, y1) = Blocked s)
  end.
Proof.
  intros Hmu.
  unfold engage, t_Lock, t_Unlock, term_MakeRaw, getWinSize, call_driver,
    term_GetSize, make_chan, go, wg_Add,
    nonBlocking, enableMouse, enablePasting, TPuts, cells_Resize. run.
  rewrite Hmu. simpl.
  destruct (stopQ t) as [c | ]; simpl; [reflexivity | ].
  destruct (k_MakeRaw K (trace w) (Fd (t_in t))) as [e0 | ]; simpl; [reflexivity | ].
  destruct (WinSize (driver t, sys w)) as [[[qw0 qh0] qerr0] [d1 y1] | msg s | s];
    simpl; [ | reflexivity | left; eexists; reflexivity ].
  destruct (is_ErrWinSizeUnused qerr0); simpl;
    [ destruct (k_GetSize K ((trace w ++ [EvMakeRaw (Fd (t_in t))]) ++ [EvDriver mWinSize])
                          (Fd (t_in t))) as [[qw qh] qerr]
    | ];
    simpl;
    (destruct (is_nil _ && negb (_ =? 0) && negb (_ =? 0)); simpl;
     (destruct (Engage (d1, y1)) as [[] [d2 y2] | msg s | s] eqn:E;
      [ reflexivity | reflexivity
      | right; eexists _, _, _, _; split; [reflexivity | exact E] ])).
Qed.

Lemma engage_releases_lock_witness :
  engage tty_kernel (gone_screen, boot_world) =
    Panic "pty: peer closed"
          (state_of (engage tty_kernel (gone_screen, boot_world))) /\
  mu (fst (state_of (engage tty_kernel (gone_screen, boot_world)))) = false.
Proof.
  split; [reflexivity | ].
  exact (engage_releases_lock tty_kernel gone_screen boot_world eq_refl).
Defined.

(** The state [getWinSize] leaves when the driver answers: the driver call
    is recorded, then at most the platform query on the input descriptor. *)
Lemma getWinSize_returns {D} {drv : TermDriver D} (K : Kernel)
    (t : tScreen D) (w : World) r d1 y1 :
  WinSize (driver t, sys w) = Ret r (d1, y1) ->
  exists ans qs,
    getWinSize K (t, w) =
      Ret ans (set_driver d1 t,
               {| trace := trace w ++ EvDriver mWinSize :: qs;
                  sys := y1; chans := chans w; running := running w |}) /\
    (qs = [] \/ qs = [EvGetSize (Fd (t_in t))]).
Proof.
  intros E. destruct r as [[qw0 qh0] qerr0].
  rewrite (getWinSize_spec K t w qw0 qh0 qerr0 d1 y1 E). cbv zeta.
  destruct (is_ErrWinSizeUnused qerr0).
  - eexists _, [EvGetSize (Fd (t_in t))]. split; [ | right; reflexivity].
    apply Ret_ext; [reflexivity | ].
    apply World_ext; simpl; try reflexivity.
    rewrite <- app_assoc. reflexivity.
  - eexists _, []. split; [ | left; reflexivity].
    apply Ret_ext; [reflexivity | ].
    apply World_ext; reflexivity.
Qed.

(** X8.  A panic of the driver's [Engage] hook leaves the session half
    engaged.  [engage] panics with the hook's message and with the lock
    released, but the terminal is already raw and the stop signal already
    set, while no capability string was emitted, the wait group was not
    touched and no loop was started; a later [engage] therefore answers
    "already engaged". *)
Theorem engage_hook_panic_half_engaged {D} {drv : TermDriver D} (K : Kernel)
    (t : tScreen D) (w : World) r d1 y1 msg d2 y2 :
  mu t = false ->
  stopQ t = None ->
  k_MakeRaw K (trace w) (Fd (t_in t)) = None ->
  WinSize (driver t, sys w) = Ret r (d1, y1) ->
  Engage (d1, y1) = Panic msg (d2, y2) ->
  exists t' w' qs rs,
    engage K (t, w) = Panic msg (t', w') /\
    mu t' = false /\
    stopQ t' = Some (List.length (chans w)) /\
    wg t' = wg t /\
    running w' = running w /\
    trace w' =
      trace w ++
      [EvMakeRaw (Fd (t_in t)); EvDriver mWinSize] ++ qs ++ rs ++
      [EvMakeChan (List.length (chans w)); EvNonBlocking false;
       EvEnableMouse (mouseFlags t); EvEnablePasting (pasteEnabled t);
       EvDriver mEngage] /\
    (qs = [] \/ qs = [EvGetSize (Fd (t_in t))]) /\
    (rs = [] \/ exists a b, rs = [EvCellsResize a b]) /\
    engage K (t', w') = Ret (Some (errors_New "already engaged")) (t', w').
Proof.
  intros Hmu Hq Hraw Hws Hen.
  destruct (getWinSize_returns K (set_mu true t) (wlog (EvMakeRaw (Fd (t_in t))) w)
              r d1 y1 Hws) as ([[qw qh] qerr] & qs & G & Hqs).
  assert (Hagain : forall (ta : tScreen D) wa ca,
            mu ta = false -> stopQ ta = Some ca ->
            engage K (ta, wa) = Ret (Some (errors_New "already engaged")) (ta, wa)).
  { intros ta wa ca Ha Hb. unfold engage, t_Lock, t_Unlock. run.
    rewrite Ha. simpl. rewrite Hb. simpl.
    rewrite set_mu_unlock by assumption. reflexivity. }
  exists (set_mu false
            (set_driver d2
               (set_stopQ (Some (List.length (chans w)))
                  (if usable_size qw qh qerr
                   then set_cells {| cb_w := qw; cb_h := qh |} t else t)))).
  exists {| trace := trace w ++
                     [EvMakeRaw (Fd (t_in t)); EvDriver mWinSize] ++ qs ++
                     (if usable_size qw qh qerr then [EvCellsResize qw qh] else []) ++
                     [EvMakeChan (List.length (chans w)); EvNonBlocking false;
                      EvEnableMouse (mouseFlags t); EvEnablePasting (pasteEnabled t);
                      EvDriver mEngage];
            sys := y2;
            chans := chans w ++ [false];
            running := running w |}.
  exists qs, (if usable_size qw qh qerr then [EvCellsResize qw qh] else []).
  split.
  - unfold engage, t_Lock, t_Unlock, term_MakeRaw, make_chan, go, wg_Add,
      nonBlocking, enableMouse, enablePasting, TPuts, cells_Resize. run.
    rewrite Hmu. simpl. rewrite Hq. simpl. rewrite Hraw. simpl.
    rewrite G. simpl. unfold usable_size.
    destruct (is_nil qerr && negb (qw =? 0) && negb (qh =? 0)); simpl;
      unfold call_driver; simpl; rewrite Hen; simpl;
      (apply f_equal; apply f_equal2;
       [ apply tScreen_ext; simpl; first [reflexivity | congruence]
       | apply World_ext; simpl; try reflexivity;
         repeat rewrite <- app_assoc; reflexivity ]).
  - simpl.
    split; [reflexivity | ].
    split; [destruct (usable_size qw qh qerr); reflexivity | ].
    split; [destruct (usable_size qw qh qerr); reflexivity | ].
    split; [reflexivity | ].
    split; [reflexivity | ].
    split; [exact Hqs | ].
    split; [destruct (usable_size qw qh qerr); [right; eexists _, _ | left]; reflexivity | ].
    apply (Hagain _ _ (List.length (chans w))).
    + reflexivity.
    + destruct (usable_size qw qh qerr); reflexivity.
Qed.

Lemma engage_hook_panic_half_engaged_witness :
  exists t' w',
    engage tty_kernel (gone_screen, boot_world) = Panic "pty: peer closed" (t', w') /\
    stopQ t' = Some 1%nat /\
    running w' = [] /\
    engage tty_kernel (t', w') = Ret (Some (errors_New "already engaged")) (t', w').
Proof.
  destruct (engage_hook_panic_half_engaged (drv := goneDriver) tty_kernel
              gone_screen boot_world (80, 24, None)
              (driver gone_screen) (sys boot_world)
              "pty: peer closed"
              (driver gone_screen) (sys boot_world)
              eq_refl eq_refl eq_refl eq_refl eq_refl)
    as (t' & w' & qs & rs & E & _ & Hq & _ & Hr & _ & _ & _ & Hagain).
  exists t', w'. repeat split; assumption.
Defined.

(** ** Engage: the order of entry *)

(** X9.  The steps of a successful [engage] come in this order: the switch
    to raw mode first; the geometry query (the driver, then at most the
    platform) and at most one resize; the new stop channel; blocking mode,
    mouse and paste as the session's flags say; the driver's hook; the five
    entry capability strings; and the two loops last, after the wait group
    was raised by two. *)
Theorem engage_entry_order {D} {drv : TermDriver D} (K : Kernel)
    (t : tScreen D) (w : World) r d1 y1 d2 y2 :
  mu t = false ->
  stopQ t = None ->
  k_MakeRaw K (trace w) (Fd (t_in t)) = None ->
  WinSize (driver t, sys w) = Ret r (d1, y1) ->
  Engage (d1, y1) = Ret tt (d2, y2) ->
  exists t' w' qs rs,
    engage K (t, w) = Ret None (t', w') /\
    trace w' =
      trace w ++
      [EvMakeRaw (Fd (t_in t)); EvDriver mWinSize] ++ qs ++ rs ++
      [EvMakeChan (List.length (chans w)); EvNonBlocking false;
       EvEnableMouse (mouseFlags t); EvEnablePasting (pasteEnabled t);
       EvDriver mEngage;
       EvTPuts (EnterCA (ti t)); EvTPuts (EnterKeypad (ti t));
       EvTPuts (HideCursor (ti t)); EvTPuts (EnableAcs (ti t));
       EvTPuts (Clear (ti t));
       EvGo inputLoop (List.length (chans w));
       EvGo mainLoop (List.length (chans w))] /\
    (qs = [] \/ qs = [EvGetSize (Fd (t_in t))]) /\
    (rs = [] \/ exists a b, rs = [EvCellsResize a b]) /\
    wg t' = (wg t + 2)%nat.
Proof.
  intros Hmu Hq Hraw Hws Hen.
  destruct (engage_returns K t w r d1 y1 d2 y2 Hmu Hq Hraw Hws Hen)
    as (qw & qh & qerr & s1 & G & E).
  destruct (getWinSize_returns K (set_mu true t) (wlog (EvMakeRaw (Fd (t_in t))) w)
              r d1 y1 Hws) as (ans & qs & G' & Hqs).
  rewrite G in G'. injection G' as _ Hs1. subst s1.
  eexists _, _, qs, (if usable_size qw qh qerr then [EvCellsResize qw qh] else []).
  split; [exact E | ]. simpl.
  split; [repeat rewrite <- app_assoc; reflexivity | ].
  split; [exact Hqs | ].
  split; [destruct (usable_size qw qh qerr); [right; eexists _, _ | left]; reflexivity | ].
  reflexivity.
Qed.

Lemma engage_entry_order_witness :
  exists t' w',
    engage tty_kernel ready = Ret None (t', w') /\
    trace w' =
      trace (snd ready) ++
      [EvMakeRaw 3; EvDriver mWinSize; EvGetSize 3; EvCellsResize 80 24;
       EvMakeChan 1%nat; EvNonBlocking false; EvEnableMouse 0;
       EvEnablePasting false; EvDriver mEngage;
       EvTPuts "smcup"; EvTPuts "smkx"; EvTPuts "civis"; EvTPuts "enacs";
       EvTPuts "clear"; EvGo inputLoop 1%nat; EvGo mainLoop 1%nat].
Proof.
  destruct (engage_entry_order (drv := tty_driver) tty_kernel
              (fst ready) (snd ready)
              (0, 0, Some ErrWinSizeUnused)
              {| winch := Some 0%nat; out := Some 4 |}
              {| dtrace := [EvOpenFile "/dev/tty" 0 0; EvOpenFile "/dev/tty" 1 0;
                            EvSignalNotify 0%nat SIGWINCH];
                 handlers := [(0%nat, SIGWINCH)] |}
              {| winch := Some 0%nat; out := Some 4 |}
              {| dtrace := [EvOpenFile "/dev/tty" 0 0; EvOpenFile "/dev/tty" 1 0;
                            EvSignalNotify 0%nat SIGWINCH;
                            EvSignalNotify 0%nat SIGWINCH];
                 handlers := [(0%nat, SIGWINCH)] |}
              eq_refl eq_refl eq_refl eq_refl eq_refl)
    as (t' & w' & qs & rs & E & Htr & _).
  exists t', w'. split; [exact E | ].
  vm_compute in E. injection E as _ Hw. subst w'. reflexivity.
Defined.

(** ** Disengage: a panicking hook *)

(** X10.  A panic of the driver's [Disengage] hook keeps the terminal from
    being given back.  From an engaged session [disengage] then panics with
    the hook's message after the loops have joined: the session is
    disengaged and the lock free, but blocking mode is not set again, no
    exit capability string is emitted and the saved attributes are not
    restored; and a second [disengage] cannot make up for it, since it
    panics closing the nil stop channel. *)
Theorem disengage_hook_panic_skips_restore {D} {drv : TermDriver D}
    (t : tScreen D) (w : World) (c : chan) msg (d' : D) (y' : Sys) :
  mu t = false ->
  stopQ t = Some c ->
  nth_error (chans w) c = Some false ->
  Forall (fun r => snd r = c) (running w) ->
  wg t = List.length (running w) ->
  Disengage (driver t, sys w) = Panic msg (d', y') ->
  exists t' w',
    disengage (t, w) = Panic msg (t', w') /\
    trace w' =
      trace w ++
      [EvNonBlocking true; EvClose c] ++
      map (fun r => EvLoopExit (fst r)) (running w) ++
      [EvJoined; EvDriver mDisengage] /\
    mu t' = false /\ stopQ t' = None /\ wg t' = 0%nat /\ running w' = [] /\
    cells t' = cells t /\
    exists s'', disengage (t', w') = Panic "close of nil channel" s''.
Proof.
  intros Hmu Hq Hopen Hall Hwg Hdrv.
  assert (Hlt : (c < List.length (chans w))%nat).
  { apply nth_error_Some. rewrite Hopen. discriminate. }
  assert (Hnot : chan_closed w c = false).
  { unfold chan_closed. apply (nth_error_nth _ _ false) in Hopen. exact Hopen. }
  exists (set_driver d' (set_wg 0 (set_stopQ None t))).
  exists {| trace := trace w ++ [EvNonBlocking true; EvClose c] ++
                     map (fun r => EvLoopExit (fst r)) (running w) ++
                     [EvJoined; EvDriver mDisengage];
            sys := y';
            chans := mark_closed c (chans w);
            running := [] |}.
  split.
  - unfold disengage, t_Lock, t_Unlock, nonBlocking, close, wg_Wait. run.
    rewrite Hmu. simpl. rewrite Hq. simpl.
    unfold chan_closed at 1. simpl. fold (chan_closed w c). rewrite Hnot. simpl.
    rewrite (loops_all_exit (running w) _ _ 0%nat).
    + simpl. unfold call_driver. simpl. rewrite Hdrv. simpl.
      apply f_equal. apply f_equal2.
      * apply tScreen_ext; simpl; congruence.
      * apply World_ext; simpl; try reflexivity.
        repeat rewrite <- app_assoc. reflexivity.
    + apply Forall_forall. intros r Hr.
      rewrite Forall_forall in Hall. rewrite (Hall r Hr).
      unfold chan_closed. simpl. apply chan_closed_mark. exact Hlt.
    + simpl. exact Hwg.
  - simpl. repeat split; try assumption.
    eexists. unfold disengage, t_Lock, nonBlocking, close. run.
    rewrite Hmu. simpl. reflexivity.
Qed.

Lemma disengage_hook_panic_skips_restore_witness :
  exists t' w',
    disengage gone_engaged = Panic "pty: peer closed" (t', w') /\
    trace w' = [EvNonBlocking true; EvClose 1%nat; EvLoopExit inputLoop;
                EvLoopExit mainLoop; EvJoined; EvDriver mDisengage].
Proof.
  destruct (disengage_hook_panic_skips_restore (drv := goneDriver)
              (fst gone_engaged) (snd gone_engaged) 1%nat
              "pty: peer closed" "/dev/pts/7" (sys boot_world)
              eq_refl eq_refl eq_refl
              (Forall_cons (inputLoop, 1%nat) eq_refl
                 (Forall_cons (mainLoop, 1%nat) eq_refl (Forall_nil _)))
              eq_refl eq_refl)
    as (t' & w' & E & Htr & _).
  exists t', w'. split; [exact E | exact Htr].
Defined.

(** ** A whole cycle *)

(** The state [initialize] leaves when the driver's [Init] succeeds. *)
Lemma initialize_returns {D} {drv : TermDriver D} (K : Kernel)
    (t : tScreen D) (w : World) i o d0 y0 :
  Init (sigwinch t) (driver t, sys w) = Ret (i, o, None) (d0, y0) ->
  initialize K (t, w) =
    Ret None
      (set_saved (match k_GetState K (trace w ++ [EvDriver mInit]) (Fd i) with
                  | inl st => Some st
                  | inr _ => None
                  end)
         (set_in_out i o (set_driver d0 t)),
       {| trace := trace w ++ [EvDriver mInit; EvGetState (Fd i)];
          sys := y0; chans := chans w; running := running w |}).
Proof.
  intros E. unfold initialize, call_driver, term_GetState. run.
  rewrite E. simpl.
  destruct (k_GetState K (trace w ++ [EvDriver mInit]) (Fd i)); simpl;
    (apply Ret_ext;
     [ reflexivity
     | apply World_ext; simpl; try reflexivity;
       rewrite <- app_assoc; reflexivity ]).
Qed.

(** X11.  What [disengage] restores is what [initialize] captured.  After
    [initialize] and [engage], the call that made the terminal raw and the
    query that captured its attributes bear on the descriptor of the input
    handle [Init] gave.  If the capture succeeded, [disengage] returns and
    its last event is the restoration of exactly the captured attributes on
    that descriptor.  If the capture failed, which [initialize] does not
    report, [disengage] goes through all its steps up to the restoration
    and panics there: the attributes are never restored. *)
Theorem disengage_restores_what_initialize_captured
    {D} {drv : TermDriver D} (K : Kernel) (Inv : D -> Prop)
    (t : tScreen D) (w : World) i o d0 y0 :
  hooks_return Inv ->
  Init (sigwinch t) (driver t, sys w) = Ret (i, o, None) (d0, y0) ->
  Inv d0 ->
  mu t = false ->
  stopQ t = None ->
  wg t = 0%nat ->
  running w = [] ->
  k_MakeRaw K (trace w ++ [EvDriver mInit; EvGetState (Fd i)]) (Fd i) = None ->
  exists s1 s2 s3 mid1 mid2,
    initialize K (t, w) = Ret None s1 /\
    engage K s1 = Ret None s2 /\
    match k_GetState K (trace w ++ [EvDriver mInit]) (Fd i) with
    | inl st =>
        disengage s2 = Ret tt s3 /\
        trace (snd s3) =
          trace w ++
          [EvDriver mInit; EvGetState (Fd i); EvMakeRaw (Fd i)] ++ mid1 ++
          [EvNonBlocking true] ++ mid2 ++
          [EvRestore (Fd i) (Some st)]
    | inr _ =>
        disengage s2 =
          Panic "runtime error: invalid memory address or nil pointer dereference" s3 /\
        trace (snd s3) =
          trace w ++
          [EvDriver mInit; EvGetState (Fd i); EvMakeRaw (Fd i)] ++ mid1 ++
          [EvNonBlocking true] ++ mid2 /\
        (forall fd a, ~ In (EvRestore fd a) mid2) /\
        In (EvTPuts (ExitCA (ti t))) mid2
    end.
Proof.
  intros HR HInit I0 Hmu Hq Hwg Hrun Hraw.
  pose proof (initialize_returns K t w i o d0 y0 HInit) as E1.
  match type of E1 with
  | _ = Ret None (?a, ?b) => set (t1 := a) in *; set (w1 := b) in *
  end.
  destruct (WinSize_returns _ HR d0 y0 I0) as (r & d1 & y1 & Hws & I1).
  destruct (Engage_returns _ HR d1 y1 I1) as (d2 & y2 & Hen & I2).
  destruct (Disengage_returns _ HR d2 y2 I2) as (d3 & y3 & Hdis & I3).
  destruct (engage_returns K t1 w1 r d1 y1 d2 y2 Hmu Hq Hraw Hws Hen)
    as (qw & qh & qerr & s1 & G & E2).
  destruct (getWinSize_returns K (set_mu true t1) (wlog (EvMakeRaw (Fd (t_in t1))) w1)
              r d1 y1 Hws) as (ans & qs & G' & _).
  rewrite G in G'. injection G' as _ Hs1. subst s1.
  match type of E2 with
  | _ = Ret None (?a, ?b) => set (t2 := a) in *; set (w2 := b) in *
  end.
  set (c := List.length (chans w)) in *.
  set (mid1 := EvDriver mWinSize :: qs ++
               (if usable_size qw qh qerr then [EvCellsResize qw qh] else []) ++
               engage_tail t1 c).
  assert (F : mu t2 = false /\ stopQ t2 = Some c /\ wg t2 = 2%nat /\
              driver t2 = d2 /\ sys w2 = y2 /\
              chans w2 = chans w ++ [false] /\
              running w2 = [(inputLoop, c); (mainLoop, c)] /\
              t_in t2 = i /\ ti t2 = ti t /\
              saved t2 = match k_GetState K (trace w ++ [EvDriver mInit]) (Fd i) with
                         | inl st => Some st
                         | inr _ => None
                         end /\
              trace w2 = trace w ++
                         [EvDriver mInit; EvGetState (Fd i); EvMakeRaw (Fd i)] ++ mid1).
  { unfold t2, w2, mid1. simpl. rewrite Hrun, Hwg.
    destruct (usable_size qw qh qerr); simpl; rewrite Hmu; repeat split;
      repeat rewrite <- app_assoc; reflexivity. }
  destruct F as (Hmu2 & Hq2 & Hwg2 & Hd2 & Hy2 & Hch2 & Hrun2 & Hin2 & Hti2 & Hsv2 & Htr2).
  assert (Hopen : nth_error (chans w ++ [false]) c = Some false).
  { unfold c. rewrite nth_error_app2 by lia. rewrite Nat.sub_diag. reflexivity. }
  assert (Hloops : Forall (fun r : Loop * chan => snd r = c)
                     [(inputLoop, c); (mainLoop, c)])
    by (repeat constructor).
  clearbody t1 w1 t2 w2 mid1.
  exists (t1, w1), (t2, w2).
  destruct (k_GetState K (trace w ++ [EvDriver mInit]) (Fd i)) as [st | ge].
  - assert (E3 := disengage_returns t2 w2 c d3 y3 st Hmu2 Hq2).
    rewrite Hch2, Hrun2, Hwg2, Hd2, Hy2 in E3.
    specialize (E3 Hopen Hloops eq_refl Hdis Hsv2).
    eexists. exists mid1.
    exists ([EvClose c; EvLoopExit inputLoop; EvLoopExit mainLoop; EvJoined] ++
            exit_events t2).
    split; [exact E1 | ]. split; [exact E2 | ]. split; [exact E3 | ].
    cbn [snd trace]. unfold disengage_tail, exit_events.
    rewrite Htr2, Hin2, Hsv2.
    repeat rewrite <- app_assoc. simpl. repeat rewrite <- app_assoc. reflexivity.
  - assert (E3 := disengage_restore_panics t2 w2 c d3 y3 Hmu2 Hq2).
    rewrite Hch2, Hrun2, Hwg2, Hd2, Hy2 in E3.
    specialize (E3 Hopen Hloops eq_refl Hdis Hsv2).
    eexists. exists mid1.
    exists ([EvClose c; EvLoopExit inputLoop; EvLoopExit mainLoop; EvJoined] ++
            exit_events t2).
    split; [exact E1 | ]. split; [exact E2 | ]. split; [exact E3 | ].
    split; [ | split].
    + cbn [snd trace]. unfold exit_events. rewrite Htr2.
      repeat rewrite <- app_assoc. simpl. repeat rewrite <- app_assoc. reflexivity.
    + intros fd a. unfold exit_events. simpl. intuition discriminate.
    + unfold exit_events. rewrite Hti2. simpl. tauto.
Qed.

Lemma disengage_restores_what_initialize_captured_witness :
  (exists s1 s2 s3,
     initialize tty_kernel (new_screen, boot_world) = Ret None s1 /\
     engage tty_kernel s1 = Ret None s2 /\
     disengage s2 = Ret tt s3 /\
     last (trace (snd s3)) EvJoined =
       EvRestore 3 (Some {| termios := [19200; 5; 191; 35387] |})) /\
  (exists s1 s2 s3,
     initialize no_state_kernel (new_screen, boot_world) = Ret None s1 /\
     engage no_state_kernel s1 = Ret None s2 /\
     disengage s2 =
       Panic "runtime error: invalid memory address or nil pointer dereference" s3 /\
     last (trace (snd s3)) EvJoined = EvEnablePasting false).
Proof.
  split.
  - destruct (disengage_restores_what_initialize_captured (drv := tty_driver)
                tty_kernel (fun d => winch d <> None) new_screen boot_world
                (Some 3) (Some 4)
                {| winch := Some 0%nat; out := Some 4 |}
                {| dtrace := [EvOpenFile "/dev/tty" 0 0; EvOpenFile "/dev/tty" 1 0;
                              EvSignalNotify 0%nat SIGWINCH];
                   handlers := [(0%nat, SIGWINCH)] |}
                (default_hooks_return tty_kernel) eq_refl Some_0_not_None
                eq_refl eq_refl eq_refl eq_refl eq_refl)
      as (s1 & s2 & s3 & mid1 & mid2 & E1 & E2 & E3 & Htr).
    exists s1, s2, s3.
    split; [exact E1 | ]. split; [exact E2 | ]. split; [exact E3 | ].
    rewrite Htr. rewrite !app_assoc. apply last_last.
  - destruct (disengage_restores_what_initialize_captured (drv := tty_driver)
                no_state_kernel (fun d => winch d <> None) new_screen boot_world
                (Some 3) (Some 4)
                {| winch := Some 0%nat; out := Some 4 |}
                {| dtrace := [EvOpenFile "/dev/tty" 0 0; EvOpenFile "/dev/tty" 1 0;
                              EvSignalNotify 0%nat SIGWINCH];
                   handlers := [(0%nat, SIGWINCH)] |}
                (default_hooks_return tty_kernel) eq_refl Some_0_not_None
                eq_refl eq_refl eq_refl eq_refl eq_refl)
      as (s1 & s2 & s3 & mid1 & mid2 & E1 & E2 & E3 & Htr & _).
    exists s1, s2, s3.
    split; [exact E1 | ]. split; [exact E2 | ]. split; [exact E3 | ].
    vm_compute in E1. injection E1 as <-.
    vm_compute in E2. injection E2 as <-.
    vm_compute in E3. injection E3 as <-. reflexivity.
Defined.

Lemma mark_closed_last (cs : list bool) :
  mark_closed (List.length cs) (cs ++ [false]) = cs ++ [true].
Proof.
  induction cs as [ | b cs IH]; simpl; [reflexivity | ].
  rewrite IH. reflexivity.
Qed.

(** X12.  [engage] followed by [disengage], on a disengaged session that
    holds saved attributes and whose three driver hooks return, gives the
    session record back as it was but for two fields: the cell buffer is
    empty, whatever geometry it had or was given, and the driver is as its
    hooks left it.  In the world no loop is running, the channels are the
    ones there were and one more, closed, and the driver's system is as the
    hooks left it. *)
Theorem engage_disengage_round_trip {D} {drv : TermDriver D} (K : Kernel)
    (t : tScreen D) (w : World) (st : term_State) r d1 y1 d2 y2 d3 y3 :
  mu t = false ->
  stopQ t = None ->
  wg t = 0%nat ->
  running w = [] ->
  saved t = Some st ->
  k_MakeRaw K (trace w) (Fd (t_in t)) = None ->
  WinSize (driver t, sys w) = Ret r (d1, y1) ->
  Engage (d1, y1) = Ret tt (d2, y2) ->
  Disengage (d2, y2) = Ret tt (d3, y3) ->
  exists s1 w2,
    engage K (t, w) = Ret None s1 /\
    disengage s1 =
      Ret tt (set_cells {| cb_w := 0; cb_h := 0 |} (set_driver d3 t), w2) /\
    sys w2 = y3 /\
    running w2 = [] /\
    chans w2 = chans w ++ [true].
Proof.
  intros Hmu Hq Hwg Hrun Hsaved Hraw Hws Hen Hdis.
  destruct (engage_returns K t w r d1 y1 d2 y2 Hmu Hq Hraw Hws Hen)
    as (qw & qh & qerr & s1 & _ & E1).
  match type of E1 with
  | _ = Ret None (?a, ?b) => set (t1 := a) in *; set (w1 := b) in *
  end.
  set (c1 := List.length (chans w)) in *.
  assert (F : mu t1 = false /\ stopQ t1 = Some c1 /\ wg t1 = 2%nat /\
              driver t1 = d2 /\ sys w1 = y2 /\
              chans w1 = chans w ++ [false] /\
              running w1 = [(inputLoop, c1); (mainLoop, c1)] /\
              saved t1 = Some st /\
              (ti t1 = ti t /\ t_in t1 = t_in t /\ t_out t1 = t_out t /\
               mouseFlags t1 = mouseFlags t /\ pasteEnabled t1 = pasteEnabled t /\
               sigwinch t1 = sigwinch t)).
  { unfold t1, w1. simpl. rewrite Hrun, Hwg.
    destruct (usable_size qw qh qerr); simpl; rewrite Hmu, Hsaved; repeat split. }
  destruct F as (Hmu1 & Hq1 & Hwg1 & Hd1 & Hy1 & Hch1 & Hrun1 & Hsv1 & Hframe).
  destruct Hframe as (F1 & F2 & F3 & F4 & F5 & F6).
  assert (Hopen : nth_error (chans w ++ [false]) c1 = Some false).
  { unfold c1. rewrite nth_error_app2 by lia. rewrite Nat.sub_diag. reflexivity. }
  assert (E2 := disengage_returns t1 w1 c1 d3 y3 st Hmu1 Hq1).
  rewrite Hch1, Hrun1, Hwg1, Hd1, Hy1 in E2.
  specialize (E2 Hopen (Forall_cons (inputLoop, c1) eq_refl
                          (Forall_cons (mainLoop, c1) eq_refl (Forall_nil _)))
                 eq_refl Hdis Hsv1).
  clearbody t1 w1.
  exists (t1, w1). eexists.
  split; [exact E1 | ]. split.
  - rewrite E2. apply Ret_ext; [ | reflexivity].
    apply tScreen_ext; simpl; congruence.
  - simpl. repeat split. unfold c1. apply mark_closed_last.
Qed.

Lemma engage_disengage_round_trip_witness :
  exists s1 w2,
    engage tty_kernel ready = Ret None s1 /\
    disengage s1 =
      Ret tt (set_cells {| cb_w := 0; cb_h := 0 |} (fst ready), w2) /\
    handlers (sys w2) = [] /\
    chans w2 = [false; true].
Proof.
  destruct (engage_disengage_round_trip (drv := tty_driver) tty_kernel
              (fst ready) (snd ready) {| termios := [19200; 5; 191; 35387] |}
              (0, 0, Some ErrWinSizeUnused)
              {| winch := Some 0%nat; out := Some 4 |}
              {| dtrace := [EvOpenFile "/dev/tty" 0 0; EvOpenFile "/dev/tty" 1 0;
                            EvSignalNotify 0%nat SIGWINCH];
                 handlers := [(0%nat, SIGWINCH)] |}
              {| winch := Some 0%nat; out := Some 4 |}
              {| dtrace := [EvOpenFile "/dev/tty" 0 0; EvOpenFile "/dev/tty" 1 0;
                            EvSignalNotify 0%nat SIGWINCH;
                            EvSignalNotify 0%nat SIGWINCH];
                 handlers := [(0%nat, SIGWINCH)] |}
              {| winch := Some 0%nat; out := Some 4 |}
              {| dtrace := [EvOpenFile "/dev/tty" 0 0; EvOpenFile "/dev/tty" 1 0;
                            EvSignalNotify 0%nat SIGWINCH;
                            EvSignalNotify 0%nat SIGWINCH;
                            EvSignalStop (Some 0%nat)];
                 handlers := [] |}
              eq_refl eq_refl eq_refl eq_refl eq_refl eq_refl
              eq_refl eq_refl eq_refl)
    as (s1 & w2 & E1 & E2 & Hs & _ & Hc).
  exists s1, w2.
  split; [exact E1 | ]. split; [exact E2 | ].
  split; [rewrite Hs; reflexivity | exact Hc].
Defined.

(** ** The default driver under a session *)

(** X13.  With the default driver, a successful [engage] leaves the resize
    signal relayed to the driver's channel, whether or not it already was
    (after [Init] it is), and the [disengage] that follows leaves it not
    relayed; the driver record is the same throughout, and what is relayed
    to other channels is never touched. *)
Theorem default_relay_follows_engagement (K K' : Kernel)
    (t : tScreen defaultTermDriver) (w : World) (c : chan) (st : term_State) :
  winch (driver t) = Some c ->
  mu t = false ->
  stopQ t = None ->
  wg t = 0%nat ->
  running w = [] ->
  saved t = Some st ->
  k_MakeRaw K (trace w) (Fd (t_in t)) = None ->
  exists t1 w1 t2 w2,
    engage (drv := defaultTermDriver_TermDriver K') K (t, w) = Ret None (t1, w1) /\
    relays c SIGWINCH (handlers (sys w1)) = true /\
    disengage (drv := defaultTermDriver_TermDriver K') (t1, w1) = Ret tt (t2, w2) /\
    relays c SIGWINCH (handlers (sys w2)) = false /\
    driver t1 = driver t /\ driver t2 = driver t /\
    (forall c', c' <> c ->
       relays c' SIGWINCH (handlers (sys w1)) = relays c' SIGWINCH (handlers (sys w)) /\
       relays c' SIGWINCH (handlers (sys w2)) = relays c' SIGWINCH (handlers (sys w))).
Proof.
  intros Hc Hmu Hq Hwg Hrun Hsaved Hraw.
  set (d := driver t) in *.
  set (ye := {| dtrace := dtrace (sys w) ++ [EvSignalNotify c SIGWINCH];
                handlers := if relays c SIGWINCH (handlers (sys w))
                            then handlers (sys w)
                            else (c, SIGWINCH) :: handlers (sys w) |}).
  set (yd := {| dtrace := dtrace ye ++ [EvSignalStop (Some c)];
                handlers := filter (fun r => negb (Nat.eqb (fst r) c)) (handlers ye) |}).
  assert (Hws : WinSize (TermDriver := defaultTermDriver_TermDriver K') (d, sys w) =
                Ret (0, 0, Some ErrWinSizeUnused) (d, sys w)) by reflexivity.
  assert (Hen : Engage (TermDriver := defaultTermDriver_TermDriver K') (d, sys w) =
                Ret tt (d, ye)).
  { simpl. unfold defaultTermDriver_Engage, signal_Notify. run. rewrite Hc. reflexivity. }
  assert (Hdis : Disengage (TermDriver := defaultTermDriver_TermDriver K') (d, ye) =
                 Ret tt (d, yd)).
  { simpl. unfold defaultTermDriver_Disengage, signal_Stop. run. rewrite Hc. reflexivity. }
  destruct (engage_returns (drv := defaultTermDriver_TermDriver K') K t w
              _ d (sys w) d ye Hmu Hq Hraw Hws Hen)
    as (qw & qh & qerr & s1 & _ & E1).
  match type of E1 with
  | _ = Ret None (?a, ?b) => set (t1 := a) in *; set (w1 := b) in *
  end.
  set (c1 := List.length (chans w)) in *.
  assert (F : mu t1 = false /\ stopQ t1 = Some c1 /\ wg t1 = 2%nat /\
              driver t1 = d /\ sys w1 = ye /\
              chans w1 = chans w ++ [false] /\
              running w1 = [(inputLoop, c1); (mainLoop, c1)] /\
              saved t1 = Some st).
  { unfold t1, w1. simpl. rewrite Hrun, Hwg.
    destruct (usable_size qw qh qerr); simpl; rewrite Hmu, Hsaved; repeat split. }
  destruct F as (Hmu1 & Hq1 & Hwg1 & Hd1 & Hy1 & Hch1 & Hrun1 & Hsv1).
  assert (Hopen : nth_error (chans w ++ [false]) c1 = Some false).
  { unfold c1. rewrite nth_error_app2 by lia. rewrite Nat.sub_diag. reflexivity. }
  assert (E2 := disengage_returns (drv := defaultTermDriver_TermDriver K')
                  t1 w1 c1 d yd st Hmu1 Hq1).
  rewrite Hch1, Hrun1, Hwg1, Hd1, Hy1 in E2.
  specialize (E2 Hopen (Forall_cons (inputLoop, c1) eq_refl
                          (Forall_cons (mainLoop, c1) eq_refl (Forall_nil _)))
                 eq_refl Hdis Hsv1).
  exists t1, w1. eexists _, _.
  split; [exact E1 | ].
  split; [rewrite Hy1; apply relays_after_Notify | ].
  split; [exact E2 | ].
  cbn [sys driver set_cells set_driver].
  split; [unfold yd; cbn [handlers]; rewrite relays_filter, Nat.eqb_refl; reflexivity | ].
  split; [exact Hd1 | ]. split; [reflexivity | ].
  intros c' Hne.
  assert (Hne' : Nat.eqb c' c = false) by (apply Nat.eqb_neq; exact Hne).
  assert (He : relays c' SIGWINCH (handlers ye) = relays c' SIGWINCH (handlers (sys w))).
  { unfold ye. cbn [handlers].
    destruct (relays c SIGWINCH (handlers (sys w))); [reflexivity | ].
    rewrite relays_cons, Hne'. reflexivity. }
  split.
  - rewrite Hy1. exact He.
  - unfold yd. cbn [handlers]. rewrite relays_filter, Hne', He. reflexivity.
Qed.

Lemma default_relay_follows_engagement_witness :
  exists t1 w1 t2 w2,
    engage tty_kernel ready = Ret None (t1, w1) /\
    relays 0%nat SIGWINCH (handlers (sys w1)) = true /\
    disengage (t1, w1) = Ret tt (t2, w2) /\
    relays 0%nat SIGWINCH (handlers (sys w2)) = false.
Proof.
  destruct (default_relay_follows_engagement tty_kernel tty_kernel
              (fst ready) (snd ready) 0%nat
              {| termios := [19200; 5; 191; 35387] |}
              eq_refl eq_refl eq_refl eq_refl eq_refl eq_refl eq_refl)
    as (t1 & w1 & t2 & w2 & E1 & R1 & E2 & R2 & _).
  exists t1, w1, t2, w2. repeat split; assumption.
Defined.
